(** * Voice chat relay: session handler and pipeline of [test.py], and the
      receive loop of [client.py].

    The server's [VoiceChatServer.handle_client] reads one JSON message at a
    time and, for an [audio] message, runs speech-to-text, response generation
    and text-to-speech in that order, sending an envelope after each stage.
    The embedding keeps the Python control flow: the [try]/[except] blocks, the
    order of the file operations and of the sends, and the values handed from
    one stage to the next.

    What lies outside the two source files is an input of the model:
    - a websocket message is represented by what [json.loads] makes of it;
    - [base64.b64decode] and [base64.b64encode] are parameters of the section;
    - the behaviour of the three engines is given, per message, by a
      [backend] record, and the moment at which the peer goes away by the
      [link] field of the world.

    A coroutine is a tree of primitive operations ([coro]).  Run alone it is a
    state transformer ([run]); several of them share the temporary directory
    and are interleaved operation by operation ([pool_run]). *)

From Stdlib Require Import PrimFloat.
From stdpp Require Import base strings list gmap pretty.

Local Set Warnings "-register-all".
Local Open Scope string_scope.
Local Open Scope list_scope.
Local Open Scope Z_scope.

(** The content of a file, and the payload of an audio clip. *)
Abbreviation bytes := (list Byte.byte).

(** ** Python values that come out of [json.loads] *)

Inductive json :=
  | JNull
  | JBool (b : bool)
  | JInt (n : Z)
  | JFloat (x : float)
  | JStr (s : string)
  | JArr (items : list json)
  | JObj (fields : list (string * json)).

(** Exceptions, by the classes the handlers of the source tell apart.
    [JSONDecodeError] is caught before the generic [Exception] clause;
    everything an engine library raises is an [EngineError]. *)
Inductive exn :=
  | JSONDecodeError
  | KeyError (key : string)
  | IndexError
  | AttributeError
  | TypeError
  | ValueError
  | FileNotFoundError
  | ConnectionClosed
  | EngineError (what : string).

Inductive result (A : Type) :=
  | Ok (a : A)
  | Raise (e : exn).
Arguments Ok {A} a.
Arguments Raise {A} e.

(** The binding of [key] in the dict that [json.loads] builds from the
    members of an object: when a name is repeated, the last one wins. *)
Fixpoint assoc (key : string) (fields : list (string * json)) : option json :=
  match fields with
  | [] => None
  | (k, v) :: rest =>
      match assoc key rest with
      | Some later => Some later
      | None => if String.eqb k key then Some v else None
      end
  end.

(** [data.get(key)]: only a dict has the method. *)
Definition py_get (data : json) (key : string) : result json :=
  match data with
  | JObj fields => Ok (default JNull (assoc key fields))
  | _ => Raise AttributeError
  end.

(** [data[key]] with a string key. *)
Definition py_getitem (data : json) (key : string) : result json :=
  match data with
  | JObj fields =>
      match assoc key fields with
      | Some v => Ok v
      | None => Raise (KeyError key)
      end
  | _ => Raise TypeError
  end.

(** [data[0]]. *)
Definition py_first (data : json) : result json :=
  match data with
  | JArr (v :: _) => Ok v
  | JArr [] => Raise IndexError
  | JStr (String c _) => Ok (JStr (String c EmptyString))
  | JStr EmptyString => Raise IndexError
  | JObj _ => Raise (KeyError "0")
  | _ => Raise TypeError
  end.

(** [v == s] for a string literal [s]. *)
Definition py_eq_str (v : json) (s : string) : bool :=
  match v with
  | JStr t => String.eqb t s
  | _ => false
  end.

(** Truth value of a Python object. *)
Definition truthy (v : json) : bool :=
  match v with
  | JNull => false
  | JBool b => b
  | JInt n => negb (n =? 0)
  | JFloat x => negb (PrimFloat.eqb x 0%float)
  | JStr s => negb (String.eqb s "")
  | JArr items => match items with [] => false | _ => true end
  | JObj fields => match fields with [] => false | _ => true end
  end.

(** ** The world: temporary files, the connection, and what has happened *)

Inductive level := INFO | ERROR.

(** The pieces of an f-string handed to the logger. *)
Inductive piece :=
  | Lit (s : string)
  | Num (n : Z)
  | Val (v : json)
  | Exc (e : exn).

Inductive engine_call :=
  | Whisper (audio_path : string)
  | Groq (text : string)
  | Eleven (text : json) (output_path : string).

Inductive effect :=
  | Sent (envelope : json)
  | Logged (lvl : level) (line : list piece)
  | Invoked (call : engine_call)
  | Created (path : string)
  | Removed (path : string)
  | Played (clip : bytes).

(** The connection as the handler sees it: [Up None] never fails,
    [Up (Some n)] takes [n] more sends before the peer is gone. *)
Inductive link_state :=
  | Up (sends_left : option nat)
  | Down.

(** [files] is shared by all the sessions of the process; [link] and [trace]
    belong to one session. *)
Record world := World {
  files : gmap string bytes;
  link : link_state;
  trace : list effect;
}.

(** ** The engines, as the adapters see them *)

Inductive whisper_outcome :=
  | Heard (segments : list string)
  | WhisperRaised (e : exn).

Record http_response := HttpResponse {
  status : Z;
  text_body : result string;
  json_body : result json;
}.

Inductive post_outcome :=
  | Responded (r : http_response)
  | PostRaised (e : exn).

(** [convert] either raises at once, or yields chunks and then, when
    [broke] is [Some e], raises [e] in the middle of the stream. *)
Inductive convert_outcome :=
  | ConvertRaised (e : exn)
  | Streamed (chunks : list bytes) (broke : option exn).

Record backend := Backend {
  whisper : option bytes → whisper_outcome;
  groq : string → post_outcome;
  eleven : json → convert_outcome;
}.

(** ** Primitive operations and coroutines *)

Inductive op : Type → Type :=
  | Emit (ev : effect) : op unit
  | OpenWb (path : string) : op unit
  | Write (path : string) (chunk : bytes) : op unit
  | ReadAll (path : string) : op bytes
  | Unlink (path : string) : op unit
  | Send (envelope : json) : op unit
  | ModelTranscribe (b : backend) (audio_path : string) : op (list string).

Definition io (A : Type) : Type := world → result A * world.

Definition perform {X} (o : op X) : io X :=
  match o in op X return io X with
  | Emit ev => λ w,
      (Ok (), World (files w) (link w) (trace w ++ [ev]))
  | OpenWb path => λ w,
      (* [open(path, "wb")]: the file exists and is empty from here on *)
      (Ok (), World (<[path := []]> (files w)) (link w) (trace w ++ [Created path]))
  | Write path chunk => λ w,
      (* [f.write(chunk)] on a file opened by [OpenWb] *)
      (Ok (), World (<[path := default [] (files w !! path) ++ chunk]> (files w))
                 (link w) (trace w))
  | ReadAll path => λ w,
      (* [open(path, "rb").read()] *)
      match files w !! path with
      | Some content => (Ok content, w)
      | None => (Raise FileNotFoundError, w)
      end
  | Unlink path => λ w,
      (* [path.unlink(missing_ok=True)] *)
      match files w !! path with
      | Some _ => (Ok (), World (delete path (files w)) (link w) (trace w ++ [Removed path]))
      | None => (Ok (), w)
      end
  | Send envelope => λ w,
      (* [await websocket.send(json.dumps(envelope))] *)
      match link w with
      | Up None => (Ok (), World (files w) (Up None) (trace w ++ [Sent envelope]))
      | Up (Some (S n)) => (Ok (), World (files w) (Up (Some n)) (trace w ++ [Sent envelope]))
      | Up (Some O) => (Raise ConnectionClosed, World (files w) Down (trace w))
      | Down => (Raise ConnectionClosed, w)
      end
  | ModelTranscribe b audio_path => λ w,
      (* [self.model.transcribe(str(audio_path), ...)]: the engine reads the
         file that is at [audio_path] when it runs *)
      match whisper b (files w !! audio_path) with
      | Heard segments => (Ok segments, w)
      | WhisperRaised e => (Raise e, w)
      end
  end.

(** A coroutine: finished, raising, or about to do one operation. *)
Inductive coro (A : Type) : Type :=
  | Return (a : A)
  | Throw (e : exn)
  | Do {X : Type} (o : op X) (k : result X → coro A).
Arguments Return {A} a.
Arguments Throw {A} e.
Arguments Do {A X} o k.

Fixpoint coro_bind {A B} (f : A → coro B) (m : coro A) : coro B :=
  match m with
  | Return a => f a
  | Throw e => Throw e
  | Do o k => Do o (λ r, coro_bind f (k r))
  end.

Global Instance coro_ret : MRet coro := λ A a, Return a.
Global Instance coro_mbind : MBind coro := λ A B f m, coro_bind f m.

Definition raise {A} (e : exn) : coro A := Throw e.

Definition lift {A} (r : result A) : coro A :=
  match r with
  | Ok a => Return a
  | Raise e => Throw e
  end.

Definition call {X} (o : op X) : coro X := Do o lift.

(** [try: body except Exception as e: handler e] *)
Fixpoint try_except {A} (body : coro A) (handler : exn → coro A) : coro A :=
  match body with
  | Return a => Return a
  | Throw e => handler e
  | Do o k => Do o (λ r, try_except (k r) handler)
  end.

(** A coroutine that nothing interrupts. *)
Fixpoint run {A} (m : coro A) (w : world) : result A * world :=
  match m with
  | Return a => (Ok a, w)
  | Throw e => (Raise e, w)
  | Do o k => let (r, w') := perform o w in run (k r) w'
  end.

Definition log (lvl : level) (line : list piece) : coro unit :=
  call (Emit (Logged lvl line)).

Definition TEMP_AUDIO_DIR : string := "temp_audio".

Definition in_dir (dir name : string) : string := dir +:+ "/" +:+ name.

(** ** [test.py]: the three adapters *)

(** [SpeechToText.transcribe] *)
Definition transcribe (b : backend) (audio_path : string) : coro string :=
  try_except
    (log INFO [Lit "Transcribing audio file: "; Lit audio_path];;
     call (Emit (Invoked (Whisper audio_path)));;
     segments ← call (ModelTranscribe b audio_path);
     let transcription := String.concat " " segments in
     log INFO [Lit "Transcription: "; Lit transcription];;
     mret transcription)
    (λ e, log ERROR [Lit "Transcription error: "; Exc e];; mret "").

(** [AIModel.generate_response] *)
Definition generate_response (b : backend) (text : string) : coro json :=
  try_except
    (call (Emit (Invoked (Groq text)));;
     match groq b text with
     | PostRaised e => raise e
     | Responded response =>
         if bool_decide (status response ≠ 200) then
           body ← lift (text_body response);
           log ERROR [Lit "Groq API error "; Num (status response); Lit ": "; Lit body];;
           mret (JStr "Sorry, I couldn't process your request.")
         else
           response_data ← lift (json_body response);
           choices ← lift (py_getitem response_data "choices");
           choice ← lift (py_first choices);
           message ← lift (py_getitem choice "message");
           response_text ← lift (py_getitem message "content");
           log INFO [Lit "AI Response: "; Val response_text];;
           mret response_text
     end)
    (λ e, log ERROR [Lit "Groq API network error: "; Exc e];;
          mret (JStr "Network error occurred.")).

Fixpoint write_chunks (path : string) (chunks : list bytes) : coro unit :=
  match chunks with
  | [] => mret ()
  | chunk :: rest => call (Write path chunk);; write_chunks path rest
  end.

(** [TextToSpeech.synthesize] *)
Definition synthesize (b : backend) (text : json) (output_path : string) : coro bool :=
  try_except
    (log INFO [Lit "Synthesizing TTS for text: "; Val text];;
     call (Emit (Invoked (Eleven text output_path)));;
     match eleven b text with
     | ConvertRaised e => raise e
     | Streamed chunks broke =>
         call (OpenWb output_path);;
         write_chunks output_path chunks;;
         match broke with
         | Some e => raise e
         | None =>
             log INFO [Lit "TTS audio saved to: "; Lit output_path];;
             mret true
         end
     end)
    (λ e, log ERROR [Lit "TTS synthesis error: "; Exc e];; mret false).

(** ** Messages on the wire *)

(** A websocket message, by what [json.loads] makes of it. *)
Inductive frame :=
  | Garbled (raw : string)
  | Decoded (data : json).

Definition json_loads (message : frame) : result json :=
  match message with
  | Garbled _ => Raise JSONDecodeError
  | Decoded data => Ok data
  end.

(** How the peer's stream ends: the [async for] over a websocket stops
    silently after a normal closure and raises [ConnectionClosed] after an
    abnormal one. *)
Inductive closure := CloseOK | CloseError.

Section Relay.

(** [base64.b64decode] on a string ([None]: it raises [binascii.Error], a
    [ValueError]) and [base64.b64encode(...).decode()]. *)
Variable b64decode : string → option bytes.
Variable b64encode : bytes → string.

Definition base64_b64decode (v : json) : result bytes :=
  match v with
  | JStr s =>
      match b64decode s with
      | Some raw => Ok raw
      | None => Raise ValueError
      end
  | _ => Raise TypeError
  end.

(** *** [test.py]: [VoiceChatServer.handle_client] *)

Definition audio_file_of (client_id : N) : string :=
  in_dir TEMP_AUDIO_DIR ("client_" +:+ pretty client_id +:+ ".wav").

Definition tts_output_of (client_id : N) : string :=
  in_dir TEMP_AUDIO_DIR ("client_" +:+ pretty client_id +:+ ".mp3").

(** The pipeline proper: the body of the [if] of the message loop. *)
Definition pipeline (client_id : N) (data : json) (b : backend) : coro unit :=
  let audio_file := audio_file_of client_id in
  call (OpenWb audio_file);;
  audio_data ← lift (py_getitem data "audio_data");
  raw ← lift (base64_b64decode audio_data);
  call (Write audio_file raw);;
  log INFO [Lit "Received audio file: "; Lit audio_file];;

  transcription ← transcribe b audio_file;
  call (Send (JObj [("type", JStr "transcription"); ("text", JStr transcription)]));;

  response_text ← generate_response b transcription;
  call (Send (JObj [("type", JStr "response"); ("text", response_text)]));;

  let tts_output := tts_output_of client_id in
  synthesized ← synthesize b response_text tts_output;
  (if synthesized : bool then
     clip ← call (ReadAll tts_output);
     call (Send (JObj [("type", JStr "audio"); ("audio_data", JStr (b64encode clip))]))
   else
     call (Send (JObj [("type", JStr "error"); ("message", JStr "TTS synthesis failed.")])));;

  call (Unlink audio_file);;
  call (Unlink tts_output).

(** The body of the inner [try]. *)
Definition dispatch (client_id : N) (message : frame) (b : backend) : coro unit :=
  data ← lift (json_loads message);
  type ← lift (py_get data "type");
  wanted ← (if py_eq_str type "audio"
            then audio_data ← lift (py_get data "audio_data"); mret (truthy audio_data)
            else mret false);
  if wanted : bool then pipeline client_id data b else mret ().

(** One turn of the message loop: the inner [try] with its three handlers. *)
Definition handle_message (client_id : N) (message : frame) (b : backend) : coro unit :=
  try_except (dispatch client_id message b)
    (λ e, match e with
          | JSONDecodeError => log ERROR [Lit "Invalid JSON message received."]
          | KeyError _ => log ERROR [Lit "Missing key in message: "; Exc e]
          | _ => log ERROR [Lit "Error processing message: "; Exc e]
          end).

(** [async for message in websocket], over the frames that the loop is
    handed.  A send that fails does not stop the loop: the inner [try] catches
    the exception, and the frames that have arrived are still delivered. *)
Fixpoint message_loop (client_id : N) (inbox : list (frame * backend)) : coro unit :=
  match inbox with
  | [] => mret ()
  | (message, b) :: rest =>
      handle_message client_id message b;; message_loop client_id rest
  end.

Definition handle_client (client_id : N) (path : string)
    (inbox : list (frame * backend)) (ending : closure) : coro unit :=
  log INFO [Lit "Client connected: "; Num (Z.of_N client_id); Lit ", path: "; Lit path];;
  try_except
    (message_loop client_id inbox;;
     match ending with
     | CloseOK => mret ()
     | CloseError => raise ConnectionClosed
     end)
    (λ e, match e with
          | ConnectionClosed => log INFO [Lit "Client disconnected: "; Num (Z.of_N client_id)]
          | _ => raise e
          end).

(** *** [client.py]: [VoiceChatClient.receive_messages] *)

(** What pydub and sounddevice do with a decoded clip: [None] when it plays
    to the end. *)
Variable playback : bytes → option exn.

Definition sd_play (clip : bytes) : coro unit :=
  match playback clip with
  | None => call (Emit (Played clip))
  | Some e => raise e
  end.

(** [play_audio_from_base64] *)
Definition play_audio_from_base64 (audio_b64 : json) : coro unit :=
  try_except
    (audio_bytes ← lift (base64_b64decode audio_b64);
     sd_play audio_bytes)
    (λ e, log ERROR [Lit "Audio playback error: "; Exc e]).

(** The body of the [async for] of [receive_messages]; nothing here catches
    an exception. *)
Definition on_message (message : frame) : coro unit :=
  data ← lift (json_loads message);
  type ← lift (py_get data "type");
  if py_eq_str type "audio" then
    log INFO [Lit "Playing received TTS audio."];;
    audio_data ← lift (py_getitem data "audio_data");
    play_audio_from_base64 audio_data
  else
    type ← lift (py_get data "type");
    if py_eq_str type "transcription" then
      text ← lift (py_getitem data "text");
      log INFO [Lit "Transcription: "; Val text]
    else
      type ← lift (py_get data "type");
      if py_eq_str type "response" then
        text ← lift (py_getitem data "text");
        log INFO [Lit "AI Response: "; Val text]
      else mret ().

Fixpoint receive_loop (inbox : list frame) : coro unit :=
  match inbox with
  | [] => mret ()
  | message :: rest => on_message message;; receive_loop rest
  end.

(** [receive_messages]: the outer [try] catches [ConnectionClosed] only. *)
Definition receive_messages (inbox : list frame) (ending : closure) : coro unit :=
  try_except
    (receive_loop inbox;;
     match ending with
     | CloseOK => mret ()
     | CloseError => raise ConnectionClosed
     end)
    (λ e, match e with
          | ConnectionClosed => log INFO [Lit "Connection closed by server."]
          | _ => raise e
          end).

(** [VoiceChatClient.send_audio], on an open websocket: on the client [files]
    is the client's directory and [link] its side of the connection. *)
Definition send_audio (filename : string) : coro unit :=
  try_except
    (raw ← call (ReadAll filename);
     let audio_b64 := b64encode raw in
     call (Send (JObj [("type", JStr "audio"); ("audio_data", JStr audio_b64)])))
    (λ e, log ERROR [Lit "Error sending audio: "; Exc e]).

End Relay.

(** ** Sessions sharing the temporary directory *)

(** A session of the pool: its connection, its trace, and what is left of its
    coroutine. *)
Record session := Session {
  own_link : link_state;
  own_trace : list effect;
  todo : coro unit;
}.

(** One operation of a session on the shared files. *)
Definition advance (F : gmap string bytes) (s : session) : gmap string bytes * session :=
  match todo s with
  | Do o k =>
      let (r, w') := perform o (World F (own_link s) (own_trace s)) in
      (files w', Session (link w') (trace w') (k r))
  | _ => (F, s)
  end.

(** The scheduler lets session [i] do one operation. *)
Definition pool_step (st : gmap string bytes * list session) (i : nat)
    : gmap string bytes * list session :=
  match st.2 !! i with
  | Some s => let (F', s') := advance st.1 s in (F', <[i := s']> st.2)
  | None => st
  end.

Definition pool_run (schedule : list nat) (st : gmap string bytes * list session)
    : gmap string bytes * list session :=
  foldl pool_step st schedule.

(** A session alone for [n] operations. *)
Fixpoint solo (n : nat) (F : gmap string bytes) (s : session) : gmap string bytes * session :=
  match n with
  | O => (F, s)
  | S n' => let (F', s') := advance F s in solo n' F' s'
  end.

(** How often the scheduler picks [i]. *)
Definition turns (i : nat) (schedule : list nat) : nat :=
  length (List.filter (Nat.eqb i) schedule).

(** The file an operation reads or writes. *)
Definition op_path {X} (o : op X) : option string :=
  match o with
  | OpenWb path | Write path _ | ReadAll path | Unlink path => Some path
  | ModelTranscribe _ audio_path => Some audio_path
  | Emit _ | Send _ => None
  end.

(** Every file operation of the coroutine is on a path in [P]. *)
Fixpoint within (P : string → Prop) {A} (m : coro A) : Prop :=
  match m with
  | Return _ | Throw _ => True
  | Do o k => (∀ path, op_path o = Some path → P path) ∧ ∀ r, within P (k r)
  end.

(** An accepted connection: [id(websocket)], its path, what the peer will
    send, with the engines' behaviour for each message, and how it ends. *)
Record connection := Connection {
  conn_id : N;
  conn_path : string;
  conn_inbox : list (frame * backend);
  conn_ending : closure;
  conn_link : link_state;
}.

(** The temporary files of a client. *)
Definition owned_by (client_id : N) (path : string) : Prop :=
  path = audio_file_of client_id ∨ path = tts_output_of client_id.

(** ** What an observer of a run sees *)

Definition is_log (ev : effect) : bool :=
  match ev with
  | Logged _ _ => true
  | _ => false
  end.

(** The trace without the logger's lines. *)
Definition outward (t : list effect) : list effect :=
  List.filter (λ ev, negb (is_log ev)) t.

(** The envelopes written to the connection, oldest first. *)
Definition sent_of (t : list effect) : list json :=
  omap (λ ev, match ev with Sent envelope => Some envelope | _ => None end) t.

(** The engine calls, oldest first. *)
Definition calls_of (t : list effect) : list engine_call :=
  omap (λ ev, match ev with Invoked call => Some call | _ => None end) t.

(** How often [path] was unlinked while it existed. *)
Definition releases (path : string) (t : list effect) : nat :=
  length (List.filter (λ ev, match ev with
                             | Removed p => String.eqb p path
                             | _ => false
                             end) t).

(** The [type] field of an envelope. *)
Definition kind_of (envelope : json) : option string :=
  match envelope with
  | JObj fields =>
      match assoc "type" fields with
      | Some (JStr kind) => Some kind
      | _ => None
      end
  | _ => None
  end.

(** The connection takes [k] more sends. *)
Definition can_send (k : nat) (l : link_state) : Prop :=
  match l with
  | Up None => True
  | Up (Some n) => (k ≤ n)%nat
  | Down => False
  end.

Global Instance can_send_dec k l : Decision (can_send k l).
Proof. destruct l as [[n|]|]; simpl; apply _. Defined.

(** The connection after [k] sends that went through. *)
Definition spend (k : nat) (l : link_state) : link_state :=
  match l with
  | Up (Some n) => Up (Some (n - k)%nat)
  | _ => l
  end.

(** A world in which nothing has happened yet. *)
Definition blank : world := World ∅ (Up None) [].

(** What [transcribe] returns when the engine finds [content] at the path. *)
Definition transcript (b : backend) (content : option bytes) : string :=
  match whisper b content with
  | Heard segments => String.concat " " segments
  | WhisperRaised _ => ""
  end.

(** What [generate_response] returns for [text]. *)
Definition reply (b : backend) (text : string) : json :=
  match (run (generate_response b text) blank).1 with
  | Ok response_text => response_text
  | Raise _ => JNull
  end.

(** The response stage failed: the request raised (a timeout or a network
    error), or the status is not a 2xx one. *)
Definition generation_failed (o : post_outcome) : Prop :=
  match o with
  | PostRaised _ => True
  | Responded response => ¬ (200 ≤ status response < 300)
  end.

Definition synthesis_ok (o : convert_outcome) : bool :=
  match o with
  | Streamed _ None => true
  | _ => false
  end.

(** The synthesis stage failed: [convert] raised, at once or in mid-stream. *)
Definition synthesis_failed (o : convert_outcome) : Prop := synthesis_ok o = false.

(** [synthesize] got as far as opening its output file. *)
Definition stream_opened (o : convert_outcome) : bool :=
  match o with
  | Streamed _ _ => true
  | ConvertRaised _ => false
  end.

Definition transcription_envelope (text : string) : json :=
  JObj [("type", JStr "transcription"); ("text", JStr text)].

Definition response_envelope (text : json) : json :=
  JObj [("type", JStr "response"); ("text", text)].

Definition audio_envelope (audio_b64 : string) : json :=
  JObj [("type", JStr "audio"); ("audio_data", JStr audio_b64)].

Definition error_envelope (message : string) : json :=
  JObj [("type", JStr "error"); ("message", JStr message)].

(** The last envelope of a run that gets to the synthesis stage. *)
Definition closing_envelope (b64encode : bytes → string) (o : convert_outcome) : json :=
  match o with
  | Streamed chunks None => audio_envelope (b64encode (concat chunks))
  | _ => error_envelope "TTS synthesis failed."
  end.

(** An [audio] message whose [audio_data] is the string [s]. *)
Definition audio_request (data : json) (s : string) : Prop :=
  py_get data "type" = Ok (JStr "audio") ∧ py_get data "audio_data" = Ok (JStr s).



(** The session of an accepted connection, before its first operation. *)
Definition serve (b64decode : string → option bytes) (b64encode : bytes → string)
    (c : connection) : session :=
  Session (conn_link c) []
    (handle_client b64decode b64encode (conn_id c) (conn_path c) (conn_inbox c)
       (conn_ending c)).

(** A session that has nothing left to do. *)
Definition finished (s : session) : Prop :=
  match todo s with
  | Do _ _ => False
  | _ => True
  end.

(** Two states of the temporary directory with the same files in [P]. *)
Definition agree_on (P : string → Prop) (F1 F2 : gmap string bytes) : Prop :=
  ∀ path, P path → F1 !! path = F2 !! path.

(** ** What a message asks for *)

(** The clip that a message makes the server stage and run through the
    pipeline: the decoded payload of an [audio] object whose [audio_data] is
    a non-empty string of base64.  Every other message stages nothing. *)
Definition staged (b64decode : string → option bytes) (message : frame) : option bytes :=
  match message with
  | Garbled _ => None
  | Decoded data =>
      match py_get data "type", py_get data "audio_data" with
      | Ok type, Ok (JStr s) =>
          if py_eq_str type "audio" && negb (String.eqb s "") then b64decode s else None
      | _, _ => None
      end
  end.

(** The envelopes a message is answered with on a connection that stays up. *)
Definition answers (b64decode : string → option bytes) (b64encode : bytes → string)
    (message : frame) (b : backend) : list json :=
  match staged b64decode message with
  | Some raw =>
      let text := transcript b (Some raw) in
      [transcription_envelope text; response_envelope (reply b text);
       closing_envelope b64encode (eleven b (reply b text))]
  | None => []
  end.

(** The part of a list of envelopes that the connection lets through. *)
Definition deliverable (l : link_state) (envelopes : list json) : list json :=
  match l with
  | Up None => envelopes
  | Up (Some n) => take n envelopes
  | Down => []
  end.

(** The connection after an attempt to send [k] envelopes. *)
Definition link_after (k : nat) (l : link_state) : link_state :=
  if decide (can_send k l) then spend k l else Down.

(** [response_data["choices"][0]["message"]["content"]] *)
Definition first_choice_content (response_data : json) : result json :=
  match py_getitem response_data "choices" with
  | Ok choices =>
      match py_first choices with
      | Ok choice =>
          match py_getitem choice "message" with
          | Ok message => py_getitem message "content"
          | Raise e => Raise e
          end
      | Raise e => Raise e
      end
  | Raise e => Raise e
  end.

(** ** Sample data for the examples *)

Module Sample.

(** The four bytes [RIFF] and the three bytes [ID3]. *)
Definition riff : bytes := [Byte.x52; Byte.x49; Byte.x46; Byte.x46].
Definition id3 : bytes := [Byte.x49; Byte.x44; Byte.x33].

(** [base64.b64decode] on the three strings the examples use: [UklGRg==] is
    [riff], the empty string is the empty clip, and [a] is rejected. *)
Definition b64decode (s : string) : option bytes :=
  if String.eqb s "UklGRg==" then Some riff
  else if String.eqb s "" then Some []
  else None.

(** [base64.b64encode] on the clips the examples use: [ID3] is [SUQz]. *)
Definition b64encode (raw : bytes) : string :=
  if bool_decide (Byte.to_N <$> raw = Byte.to_N <$> id3) then "SUQz" else "".

(** Engines that answer the same whatever they are given. *)
Definition engines (heard : whisper_outcome) (posted : post_outcome)
    (converted : convert_outcome) : backend :=
  Backend (λ _, heard) (λ _, posted) (λ _, converted).

(** A chat completion whose first choice says [content]. *)
Definition completion (content : string) : post_outcome :=
  Responded
    (HttpResponse 200 (Ok "{...}")
       (Ok (JObj [("choices",
                   JArr [JObj [("message",
                                JObj [("role", JStr "assistant");
                                      ("content", JStr content)])]])]))).

Definition heard_hello : whisper_outcome := Heard [" Hello"; " there"].
Definition silence : whisper_outcome := Heard [].
Definition whisper_down : whisper_outcome := WhisperRaised (EngineError "decoder").
Definition groq_down : post_outcome := PostRaised (EngineError "timeout").
Definition groq_busy : post_outcome :=
  Responded (HttpResponse 503 (Ok "busy") (Raise ValueError)).
Definition spoken : convert_outcome := Streamed [id3] None.
Definition eleven_down : convert_outcome := ConvertRaised (EngineError "quota").

(** [{"type": "audio", "audio_data": s}] *)
Definition audio_message (s : string) : json :=
  JObj [("type", JStr "audio"); ("audio_data", JStr s)].

Definition wav7 : string := "temp_audio/client_7.wav".
Definition mp37 : string := "temp_audio/client_7.mp3".

(** All three engines work. *)
Definition healthy : backend := engines heard_hello (completion "Hi") spoken.
(** The transcription engine raises; the other two work. *)
Definition deaf : backend := engines whisper_down (completion "Hi") spoken.
(** The clip is silence; the other two engines work. *)
Definition quiet : backend := engines silence (completion "Hi") spoken.
(** The response engine times out. *)
Definition speechless : backend := engines heard_hello groq_down spoken.
(** The synthesis engine raises. *)
Definition mute : backend := engines heard_hello (completion "Hi") eleven_down.

(** Nothing plays: the client has no sound device. *)
Definition playback (clip : bytes) : option exn := Some (EngineError "no device").

(** [{"type": "error", "message": "TTS synthesis failed."}], as the client
    decodes it. *)
Definition error_fields : list (string * json) :=
  [("type", JStr "error"); ("message", JStr "TTS synthesis failed.")].

(** Two clients: the first sends garbage and then loses its connection in the
    middle of a run, the second sends one clip. *)
Definition first_client : connection :=
  Connection 7 "/" [(Garbled "{", deaf); (Decoded (audio_message "UklGRg=="), mute)]
    CloseError (Up (Some 1%nat)).
Definition second_client : connection :=
  Connection 8 "/" [(Decoded (audio_message "UklGRg=="), healthy)] CloseOK (Up None).

(** A reply with status 200 and an empty list of choices. *)
Definition groq_empty : post_outcome :=
  Responded (HttpResponse 200 (Ok "{...}") (Ok (JObj [("choices", JArr [])]))).
(** The response engine answers without a choice. *)
Definition vague : backend := engines heard_hello groq_empty spoken.

(** base64 on the two clips of the examples, in both directions. *)
Definition decode (s : string) : option bytes :=
  if String.eqb s "UklGRg==" then Some riff
  else if String.eqb s "SUQz" then Some id3
  else if String.eqb s "" then Some []
  else None.
Definition encode (raw : bytes) : string :=
  if bool_decide (Byte.to_N <$> raw = Byte.to_N <$> riff) then "UklGRg=="
  else if bool_decide (Byte.to_N <$> raw = Byte.to_N <$> id3) then "SUQz"
  else "".

(** A sound device that plays every clip. *)
Definition speaker (clip : bytes) : option exn := None.

(** The directory of a client that has recorded the clip [RIFF], with its
    connection open. *)
Definition recorded : world := World {["client_recording.wav" := riff]} (Up None) [].

(** A temporary directory in which an interrupted run of client 7 has left a
    synthesized clip, next to a file that belongs to no client. *)
Definition littered : world :=
  World {["temp_audio/client_7.mp3" := id3; "temp_audio/notes.txt" := riff]} (Up None) [].

End Sample.

(** ** Running a coroutine *)

Lemma run_bind {A B} (m : coro A) (f : A → coro B) w :
  run (m ≫= f) w
  = match run m w with
    | (Ok a, w') => run (f a) w'
    | (Raise e, w') => (Raise e, w')
    end.
Proof.
  revert w. induction m as [a|e|X o k IH]; intros w; try done.
  simpl. destruct (perform o w) as [r w']. apply IH.
Qed.

Lemma run_try {A} (m : coro A) (h : exn → coro A) w :
  run (try_except m h) w
  = match run m w with
    | (Ok a, w') => (Ok a, w')
    | (Raise e, w') => run (h e) w'
    end.
Proof.
  revert w. induction m as [a|e|X o k IH]; intros w; try done.
  simpl. destruct (perform o w) as [r w']. apply IH.
Qed.

Lemma run_call {X} (o : op X) w : run (call o) w = perform o w.
Proof. simpl. by destruct (perform o w) as [[x|e] w']. Qed.

Lemma run_lift {A} (r : result A) w : run (lift r) w = (r, w).
Proof. by destruct r. Qed.

Lemma bind_ok {A B} (m : coro A) (f : A → coro B) w a w' :
  run m w = (Ok a, w') → run (m ≫= f) w = run (f a) w'.
Proof. intros H. by rewrite run_bind, H. Qed.

Lemma bind_raise {A B} (m : coro A) (f : A → coro B) w e w' :
  run m w = (Raise e, w') → run (m ≫= f) w = (Raise e, w').
Proof. intros H. by rewrite run_bind, H. Qed.

Lemma run_log lvl line w :
  run (log lvl line) w = (Ok (), World (files w) (link w) (trace w ++ [Logged lvl line])).
Proof. done. Qed.

Lemma outward_app t1 t2 : outward (t1 ++ t2) = outward t1 ++ outward t2.
Proof. apply List.filter_app. Qed.

Lemma sent_of_app t1 t2 : sent_of (t1 ++ t2) = sent_of t1 ++ sent_of t2.
Proof. apply omap_app. Qed.

Lemma calls_of_app t1 t2 : calls_of (t1 ++ t2) = calls_of t1 ++ calls_of t2.
Proof. apply omap_app. Qed.

Lemma releases_app path t1 t2 :
  releases path (t1 ++ t2) = (releases path t1 + releases path t2)%nat.
Proof. unfold releases. by rewrite List.filter_app, length_app. Qed.

Lemma sent_of_outward t : sent_of (outward t) = sent_of t.
Proof.
  induction t as [|ev t IH]; [done|].
  destruct ev; simpl; by rewrite ?IH.
Qed.

Lemma calls_of_outward t : calls_of (outward t) = calls_of t.
Proof.
  induction t as [|ev t IH]; [done|].
  destruct ev; simpl; by rewrite ?IH.
Qed.

Lemma releases_outward path t : releases path (outward t) = releases path t.
Proof.
  unfold releases.
  induction t as [|ev t IH]; [done|].
  destruct ev as [| | | |p|]; simpl; try done.
  destruct (String.eqb p path); simpl; by rewrite IH.
Qed.

(** ** The three adapters never raise *)

Ltac trace_done :=
  eexists; (split; [rewrite <- ?app_assoc; reflexivity | reflexivity]).

Lemma transcribe_run b p w :
  ∃ l, run (transcribe b p) w
       = (Ok (transcript b (files w !! p)), World (files w) (link w) (trace w ++ l))
     ∧ outward l = [Invoked (Whisper p)].
Proof.
  unfold transcript. simpl.
  destruct (whisper b (files w !! p)); simpl; trace_done.
Qed.

Lemma generate_response_run b text w :
  ∃ l, run (generate_response b text) w
       = (Ok (reply b text), World (files w) (link w) (trace w ++ l))
     ∧ outward l = [Invoked (Groq text)].
Proof.
  unfold reply, generate_response. simpl.
  destruct (groq b text) as [response|e]; simpl; [|trace_done].
  destruct (bool_decide (status response ≠ 200)).
  - destruct (text_body response); simpl; trace_done.
  - destruct (json_body response) as [response_data|]; simpl; [|trace_done].
    destruct (py_getitem response_data "choices") as [choices|]; simpl; [|trace_done].
    destruct (py_first choices) as [choice|]; simpl; [|trace_done].
    destruct (py_getitem choice "message") as [message|]; simpl; [|trace_done].
    destruct (py_getitem message "content"); simpl; trace_done.
Qed.

Lemma write_chunks_run p chunks w content :
  files w !! p = Some content →
  run (write_chunks p chunks) w
  = (Ok (), World (<[p := content ++ concat chunks]> (files w)) (link w) (trace w)).
Proof.
  revert w content.
  induction chunks as [|chunk rest IH]; intros [F L T] content HF; simpl in *.
  - by rewrite app_nil_r, insert_id.
  - rewrite HF. simpl. fold (write_chunks p rest).
    change (coro_bind (λ _, write_chunks p rest) (Return ())) with (write_chunks p rest).
    erewrite IH by (simpl; apply lookup_insert_eq). simpl.
    by rewrite insert_insert_eq, <- app_assoc.
Qed.

Lemma synthesize_raised b text p w e :
  eleven b text = ConvertRaised e →
  ∃ l, run (synthesize b text p) w = (Ok false, World (files w) (link w) (trace w ++ l))
     ∧ outward l = [Invoked (Eleven text p)].
Proof.
  intros He. unfold synthesize. simpl. rewrite He. simpl. trace_done.
Qed.

Lemma synthesize_streamed b text p w chunks broke :
  eleven b text = Streamed chunks broke →
  ∃ l, run (synthesize b text p) w
       = (Ok (bool_decide (broke = None)),
          World (<[p := concat chunks]> (files w)) (link w) (trace w ++ l))
     ∧ outward l = [Invoked (Eleven text p); Created p].
Proof.
  intros He. unfold synthesize.
  rewrite run_try, run_bind, run_log, run_bind, run_call. cbn [perform files link trace].
  rewrite He, run_bind, run_call. cbn [perform files link trace].
  rewrite run_bind.
  erewrite write_chunks_run by (simpl; apply lookup_insert_eq).
  cbn [files link trace app]. rewrite insert_insert_eq.
  destruct broke as [e|]; simpl; trace_done.
Qed.

(** ** One message on the server *)

Lemma spend_spend a c L : spend a (spend c L) = spend (c + a) L.
Proof. destruct L as [[n|]|]; simpl; try done. do 2 f_equal. lia. Qed.

Lemma send_run envelope F L T k :
  can_send (S k) L →
  run (call (Send envelope)) (World F L T)
  = (Ok (), World F (spend 1 L) (T ++ [Sent envelope]))
  ∧ can_send k (spend 1 L).
Proof.
  rewrite run_call.
  destruct L as [[[|n]|]|]; simpl; try done; try lia.
  intros. rewrite Nat.sub_0_r. split; [done|lia].
Qed.

Lemma send_refused envelope F L T :
  ¬ can_send 1 L →
  run (call (Send envelope)) (World F L T) = (Raise ConnectionClosed, World F Down T).
Proof.
  rewrite run_call.
  destruct L as [[[|n]|]|]; simpl; try done; intros H; destruct H; lia.
Qed.

Lemma paths_differ client_id : audio_file_of client_id ≠ tts_output_of client_id.
Proof.
  unfold audio_file_of, tts_output_of, in_dir. intros H.
  repeat (apply (inj (String.app _)) in H). discriminate.
Qed.

Lemma unlink_pair_run (F : gmap string bytes) L T wav tts raw :
  wav ≠ tts →
  run (call (Unlink wav) ≫= λ _, call (Unlink tts)) (World (<[wav:=raw]> F) L T)
  = (Ok (), World (delete tts (delete wav F)) L
                  (T ++ Removed wav
                        :: (if bool_decide (is_Some (F !! tts)) then [Removed tts] else []))).
Proof.
  intros Hne. rewrite run_bind, run_call. cbn [perform files link trace].
  rewrite lookup_insert_eq, run_call. cbn [perform files link trace].
  rewrite delete_insert_eq, lookup_delete_ne by done.
  destruct (F !! tts) as [c|] eqn:HF.
  - rewrite bool_decide_eq_true_2 by eauto. by rewrite <- app_assoc.
  - rewrite bool_decide_eq_false_2 by (intros [? ?]; done).
    rewrite (delete_id (delete wav F)); [done|].
    by rewrite lookup_delete_ne.
Qed.

Ltac run_step lem :=
  match goal with
  | |- context [ run (?m ≫= ?f) ?w ] =>
      let l := fresh "l" in
      let E := fresh "E" in
      let O := fresh "O" in
      edestruct (lem w) as (l & E & O);
      [..| rewrite (bind_ok m f w _ _ E); clear E; cbn [files link trace]]
  end.

Ltac run_send k H :=
  match goal with
  | |- context [ run (call (Send ?env) ≫= ?f) (World ?F ?L ?T) ] =>
      let E := fresh "E" in
      let H' := fresh "Hlink" in
      destruct (send_run env F L T k H) as [E H'];
      rewrite (bind_ok (call (Send env)) f _ _ _ E); clear E H
  end.

(** The run up to the transcription stage: the clip is decoded and staged. *)
Ltac run_staging Hdata Hraw :=
  unfold pipeline; rewrite run_bind, run_call; cbn [perform files link trace];
  rewrite Hdata, run_bind, run_lift; unfold base64_b64decode;
  rewrite Hraw, run_bind, run_lift, run_bind, run_call; cbn [perform files link trace];
  rewrite lookup_insert_eq, insert_insert_eq, run_bind, run_log;
  cbn [files link trace default from_option id app].

Section RelayFacts.

Variable b64decode : string → option bytes.
Variable b64encode : bytes → string.

(** A run on a connection that stays up: the three stages in order, the
    three envelopes, and both files unlinked at the end. *)
Lemma pipeline_run client_id data s raw b w :
  py_getitem data "audio_data" = Ok (JStr s) →
  b64decode s = Some raw →
  can_send 3 (link w) →
  let wav := audio_file_of client_id in
  let tts := tts_output_of client_id in
  let text := transcript b (Some raw) in
  let o := eleven b (reply b text) in
  ∃ l, run (pipeline b64decode b64encode client_id data b) w
       = (Ok (), World (delete tts (delete wav (files w))) (spend 3 (link w))
                       (trace w ++ l))
     ∧ outward l
       = [Created wav; Invoked (Whisper wav); Sent (transcription_envelope text);
          Invoked (Groq text); Sent (response_envelope (reply b text));
          Invoked (Eleven (reply b text) tts)]
         ++ (if stream_opened o then [Created tts] else [])
         ++ [Sent (closing_envelope b64encode o); Removed wav]
         ++ (if stream_opened o || bool_decide (is_Some (files w !! tts))
             then [Removed tts] else []).
Proof.
  intros Hdata Hraw Hlink wav tts text o.
  assert (wav ≠ tts) as Hne by apply paths_differ.
  destruct w as [F L T]. cbn [files link trace] in *.
  run_staging Hdata Hraw. fold wav. fold tts. clearbody wav tts.
  run_step (transcribe_run b wav).
  rewrite lookup_insert_eq. fold text.
  run_send 2%nat Hlink.
  run_step (generate_response_run b text).
  run_send 1%nat Hlink0.
  subst o. destruct (eleven b (reply b text)) as [e|chunks broke] eqn:Ho.
  - run_step (synthesize_raised b (reply b text) tts); [exact Ho|].
    run_send 0%nat Hlink.
    rewrite unlink_pair_run by done.
    eexists. split.
    + rewrite !spend_spend. simpl. rewrite <- !app_assoc. reflexivity.
    + rewrite !outward_app, O, O0, O1. simpl.
      by destruct (bool_decide (is_Some (F !! tts))).
  - run_step (synthesize_streamed b (reply b text) tts); [exact Ho|].
    rewrite (insert_insert_ne _ tts wav) by done.
    assert (delete tts (delete wav (<[tts:=concat chunks]> F))
            = delete tts (delete wav F)) as HF.
    { rewrite delete_insert_ne by done. by rewrite delete_insert_eq. }
    destruct broke as [e|]; cbn [bool_decide decide_rel].
    + rewrite bool_decide_eq_false_2 by done.
      run_send 0%nat Hlink.
      rewrite unlink_pair_run, HF by done.
      rewrite lookup_insert_eq, bool_decide_eq_true_2 by eauto.
      eexists. split.
      * rewrite !spend_spend. simpl. rewrite <- !app_assoc. reflexivity.
      * rewrite !outward_app, O, O0, O1. reflexivity.
    + rewrite bool_decide_eq_true_2 by done.
      match goal with
      | |- context [ run ((call (ReadAll tts) ≫= ?f) ≫= ?k) (World ?F' ?L' ?T') ] =>
          destruct (send_run (audio_envelope (b64encode (concat chunks)))
                      F' L' T' 0%nat Hlink) as [Es _];
          assert (run (call (ReadAll tts) ≫= f) (World F' L' T')
                  = (Ok (), World F' (spend 1 L')
                              (T' ++ [Sent (audio_envelope (b64encode (concat chunks)))])))
            as Ei
            by (erewrite bind_ok;
                [exact Es
                |rewrite run_call; cbn [perform files];
                 by rewrite lookup_insert_ne, lookup_insert_eq]);
          rewrite (bind_ok _ k _ _ _ Ei); clear Ei Es
      end.
      rewrite unlink_pair_run, HF by done.
      rewrite lookup_insert_eq, bool_decide_eq_true_2 by eauto.
      eexists. split.
      * rewrite !spend_spend. simpl. rewrite <- !app_assoc. reflexivity.
      * rewrite !outward_app, O, O0, O1. reflexivity.
Qed.

(** The peer goes away during the run: the [send] that finds the connection
    closed raises, and nothing after it is executed. *)
Lemma pipeline_cut client_id data s raw b w :
  py_getitem data "audio_data" = Ok (JStr s) →
  b64decode s = Some raw →
  ¬ can_send 3 (link w) →
  let wav := audio_file_of client_id in
  let tts := tts_output_of client_id in
  ∃ F' l, run (pipeline b64decode b64encode client_id data b) w
          = (Raise ConnectionClosed, World F' Down (trace w ++ l))
        ∧ F' !! wav = Some raw
        ∧ releases wav l = 0%nat ∧ releases tts l = 0%nat.
Proof.
  intros Hdata Hraw Hlink wav tts.
  assert (wav ≠ tts) as Hne by apply paths_differ.
  destruct w as [F L T]. cbn [files link trace] in *.
  run_staging Hdata Hraw. fold wav. fold tts. clearbody wav tts.
  run_step (transcribe_run b wav).
  rewrite lookup_insert_eq.
  set (text := transcript b (Some raw)).
  destruct (decide (can_send 1 L)) as [H1|H1].
  2:{ erewrite bind_raise by (by apply send_refused).
      eexists _, _. split; [rewrite <- !app_assoc; reflexivity|].
      split; [apply lookup_insert_eq|].
      rewrite <- (releases_outward wav), <- (releases_outward tts), !outward_app, O.
      by split. }
  run_send 0%nat H1.
  run_step (generate_response_run b text).
  destruct (decide (can_send 1 (spend 1 L))) as [H2|H2].
  2:{ erewrite bind_raise by (by apply send_refused).
      eexists _, _. split; [rewrite <- !app_assoc; reflexivity|].
      split; [apply lookup_insert_eq|].
      rewrite <- (releases_outward wav), <- (releases_outward tts), !outward_app, O, O0.
      by split. }
  run_send 0%nat H2.
  assert (¬ can_send 1 (spend 1 (spend 1 L))) as H3.
  { destruct L as [[n|]|]; simpl in *; lia. }
  destruct (eleven b (reply b text)) as [e|chunks broke] eqn:Ho.
  - run_step (synthesize_raised b (reply b text) tts); [exact Ho|].
    erewrite bind_raise by (by apply send_refused).
    eexists _, _. split; [rewrite <- !app_assoc; reflexivity|].
    split; [apply lookup_insert_eq|].
    rewrite <- (releases_outward wav), <- (releases_outward tts), !outward_app, O, O0, O1.
      by split.
  - run_step (synthesize_streamed b (reply b text) tts); [exact Ho|].
    assert (<[tts:=concat chunks]> (<[wav:=raw]> F) !! wav = Some raw) as HF.
    { by rewrite lookup_insert_ne, lookup_insert_eq. }
    destruct broke as [e|].
    + rewrite bool_decide_eq_false_2 by done.
      erewrite bind_raise by (by apply send_refused).
      eexists _, _. split; [rewrite <- !app_assoc; reflexivity|].
      split; [exact HF|].
      rewrite <- (releases_outward wav), <- (releases_outward tts), !outward_app, O, O0, O1.
      by split.
    + rewrite bool_decide_eq_true_2 by done.
      erewrite bind_raise.
      2:{ erewrite bind_ok; [by apply send_refused|].
          rewrite run_call. cbn [perform files].
          by rewrite lookup_insert_eq. }
      eexists _, _. split; [rewrite <- !app_assoc; reflexivity|].
      split; [exact HF|].
      rewrite <- (releases_outward wav), <- (releases_outward tts), !outward_app, O, O0, O1.
      by split.
Qed.

(** The payload is not base64, or not a string: the staged file stays
    behind, empty. *)
Lemma pipeline_undecodable client_id data v e b w :
  py_getitem data "audio_data" = Ok v →
  base64_b64decode b64decode v = Raise e →
  let wav := audio_file_of client_id in
  run (pipeline b64decode b64encode client_id data b) w
  = (Raise e, World (<[wav:=[]]> (files w)) (link w) (trace w ++ [Created wav])).
Proof.
  intros Hdata Hraw wav. unfold pipeline.
  rewrite run_bind, run_call. cbn [perform files link trace].
  by rewrite Hdata, run_bind, run_lift, Hraw, run_bind, run_lift.
Qed.

(** *** The message loop around the pipeline *)

Lemma audio_request_getitem data s :
  audio_request data s → py_getitem data "audio_data" = Ok (JStr s).
Proof.
  intros [_ H]. destruct data as [| | | | | |fields]; try done.
  simpl in *. destruct (assoc "audio_data" fields); simpl in *; congruence.
Qed.

Lemma dispatch_audio client_id data s b :
  audio_request data s → s ≠ "" →
  dispatch b64decode b64encode client_id (Decoded data) b
  = pipeline b64decode b64encode client_id data b.
Proof.
  intros [Hty Had] Hs. unfold dispatch. simpl.
  rewrite Hty. simpl. rewrite Had. simpl.
  apply String.eqb_neq in Hs. by rewrite Hs.
Qed.

(** A message that is not an [audio] message with a payload is skipped:
    nothing is sent, logged or touched. *)
Lemma dispatch_skips client_id data type b :
  py_get data "type" = Ok type →
  (py_eq_str type "audio" = true →
   ∃ v, py_get data "audio_data" = Ok v ∧ truthy v = false) →
  dispatch b64decode b64encode client_id (Decoded data) b = Return ().
Proof.
  intros Hty Had. unfold dispatch. simpl. rewrite Hty. simpl.
  destruct (py_eq_str type "audio"); [|done].
  destruct Had as (v & -> & Hv); [done|]. simpl. by rewrite Hv.
Qed.

(** The complete run of an [audio] message on a connection that stays up. *)
Lemma served_run client_id data s raw b w :
  audio_request data s → s ≠ "" →
  b64decode s = Some raw →
  can_send 3 (link w) →
  let wav := audio_file_of client_id in
  let tts := tts_output_of client_id in
  let text := transcript b (Some raw) in
  let o := eleven b (reply b text) in
  ∃ l, run (handle_message b64decode b64encode client_id (Decoded data) b) w
       = (Ok (), World (delete tts (delete wav (files w))) (spend 3 (link w))
                       (trace w ++ l))
     ∧ sent_of l = [transcription_envelope text; response_envelope (reply b text);
                    closing_envelope b64encode o]
     ∧ calls_of l = [Whisper wav; Groq text; Eleven (reply b text) tts]
     ∧ releases wav l = 1%nat
     ∧ releases tts l
       = (if stream_opened o || bool_decide (is_Some (files w !! tts))
          then 1%nat else 0%nat).
Proof.
  intros Hreq Hs Hraw Hlink wav tts text o.
  assert (wav ≠ tts) as Hne by apply paths_differ.
  apply String.eqb_neq in Hne as Hwt.
  assert (tts ≠ wav) as Htw by done. apply String.eqb_neq in Htw.
  destruct (pipeline_run client_id data s raw b w
              (audio_request_getitem _ _ Hreq) Hraw Hlink) as (l & E & O).
  fold wav tts text o in E, O. clearbody wav tts.
  exists l. unfold handle_message.
  rewrite (dispatch_audio _ _ s) by done. rewrite run_try, E.
  split; [done|].
  rewrite <- (sent_of_outward l), <- (calls_of_outward l),
    <- (releases_outward wav l), <- (releases_outward tts l), O.
  unfold releases.
  destruct (stream_opened o), (bool_decide (is_Some (files w !! tts)));
    simpl; rewrite ?String.eqb_refl, ?Hwt, ?Htw; done.
Qed.

(** What [generate_response] returns when the request fails. *)
Lemma reply_fallback b text :
  generation_failed (groq b text) →
  reply b text = JStr "Sorry, I couldn't process your request."
  ∨ reply b text = JStr "Network error occurred.".
Proof.
  unfold reply, generate_response, generation_failed. simpl.
  destruct (groq b text) as [response|e]; simpl; [|by right].
  intros Hst. rewrite bool_decide_eq_true_2 by lia.
  destruct (text_body response); simpl; [by left|by right].
Qed.

(** ** The claims about the server *)

(** C1, as amended.  When the transcription engine fails during a run on a
    connection that stays up, [transcribe] returns the empty string: the server
    sends a [transcription] envelope with empty text, then invokes the response
    engine with the empty transcript and the synthesis engine with its reply,
    and sends their envelopes.  No envelope reports the transcription failure. *)
Theorem transcription_failure_is_passed_on client_id data s raw b w e :
  audio_request data s → s ≠ "" →
  b64decode s = Some raw →
  can_send 3 (link w) →
  whisper b (Some raw) = WhisperRaised e →
  ∃ l, (run (handle_message b64decode b64encode client_id (Decoded data) b) w).2
       = World (delete (tts_output_of client_id)
                  (delete (audio_file_of client_id) (files w)))
               (spend 3 (link w)) (trace w ++ l)
     ∧ sent_of l = [transcription_envelope ""; response_envelope (reply b "");
                    closing_envelope b64encode (eleven b (reply b ""))]
     ∧ calls_of l = [Whisper (audio_file_of client_id); Groq "";
                     Eleven (reply b "") (tts_output_of client_id)].
Proof.
  intros Hreq Hs Hraw Hlink He.
  destruct (served_run client_id data s raw b w Hreq Hs Hraw Hlink)
    as (l & E & Hsent & Hcalls & _).
  assert (transcript b (Some raw) = "") as Ht by (unfold transcript; by rewrite He).
  rewrite Ht in Hsent, Hcalls.
  exists l. by rewrite E.
Qed.



(** C5.  When the response engine fails (the request raises, as on a timeout
    or a network error, or the status is not 2xx) during a run on a connection
    that stays up, the second envelope of the run is a [response] envelope whose
    text is one of the two fixed fallback sentences of [generate_response];
    the only other envelopes are the [transcription] before it and the
    [audio] or synthesis [error] after it. *)
Theorem generation_failure_sends_fallback client_id data s raw b w :
  audio_request data s → s ≠ "" →
  b64decode s = Some raw →
  can_send 3 (link w) →
  generation_failed (groq b (transcript b (Some raw))) →
  ∃ l fallback closing,
    trace (run (handle_message b64decode b64encode client_id (Decoded data) b) w).2
    = trace w ++ l
    ∧ (fallback = "Sorry, I couldn't process your request."
       ∨ fallback = "Network error occurred.")
    ∧ sent_of l = [transcription_envelope (transcript b (Some raw));
                   response_envelope (JStr fallback); closing]
    ∧ kind_of (response_envelope (JStr fallback)) = Some "response".
Proof.
  intros Hreq Hs Hraw Hlink Hfail.
  destruct (served_run client_id data s raw b w Hreq Hs Hraw Hlink)
    as (l & E & Hsent & _).
  exists l. rewrite E, Hsent.
  destruct (reply_fallback _ _ Hfail) as [-> | ->]; eexists _, _; eauto.
Qed.

(** C6.  When the synthesis engine fails during a run on a connection that
    stays up, the run sends the [transcription] and the [response] envelopes
    and then an [error] envelope saying that the synthesis failed; the run ends
    there, without a second call of the synthesis engine. *)
Theorem synthesis_failure_follows_response client_id data s raw b w :
  audio_request data s → s ≠ "" →
  b64decode s = Some raw →
  can_send 3 (link w) →
  synthesis_failed (eleven b (reply b (transcript b (Some raw)))) →
  ∃ l, run (handle_message b64decode b64encode client_id (Decoded data) b) w
       = (Ok (), World (delete (tts_output_of client_id)
                          (delete (audio_file_of client_id) (files w)))
                       (spend 3 (link w)) (trace w ++ l))
     ∧ sent_of l = [transcription_envelope (transcript b (Some raw));
                    response_envelope (reply b (transcript b (Some raw)));
                    error_envelope "TTS synthesis failed."]
     ∧ calls_of l = [Whisper (audio_file_of client_id);
                     Groq (transcript b (Some raw));
                     Eleven (reply b (transcript b (Some raw)))
                       (tts_output_of client_id)].
Proof.
  intros Hreq Hs Hraw Hlink Hfail.
  destruct (served_run client_id data s raw b w Hreq Hs Hraw Hlink)
    as (l & E & Hsent & Hcalls & _).
  exists l. rewrite E, Hsent, Hcalls. split; [done|]. split; [|done].
  unfold synthesis_failed in Hfail.
  by destruct (eleven b (reply b (transcript b (Some raw)))) as [?|? [?|]].
Qed.

(** C7.  When the transcription engine succeeds with empty text during a
    run on a connection that stays up, the first envelope is a [transcription]
    envelope with the empty string, and the response engine is invoked with
    the empty transcript. *)
Theorem silence_is_passed_through client_id data s raw b w segments :
  audio_request data s → s ≠ "" →
  b64decode s = Some raw →
  can_send 3 (link w) →
  whisper b (Some raw) = Heard segments →
  String.concat " " segments = "" →
  ∃ l, trace (run (handle_message b64decode b64encode client_id (Decoded data) b) w).2
       = trace w ++ l
     ∧ sent_of l = [transcription_envelope ""; response_envelope (reply b "");
                    closing_envelope b64encode (eleven b (reply b ""))]
     ∧ calls_of l = [Whisper (audio_file_of client_id); Groq "";
                     Eleven (reply b "") (tts_output_of client_id)].
Proof.
  intros Hreq Hs Hraw Hlink Hheard Hempty.
  destruct (served_run client_id data s raw b w Hreq Hs Hraw Hlink)
    as (l & E & Hsent & Hcalls & _).
  assert (transcript b (Some raw) = "") as Ht
    by (unfold transcript; by rewrite Hheard).
  rewrite Ht in Hsent, Hcalls.
  exists l. by rewrite E.
Qed.

(** C9.  An [audio] message whose [audio_data] is absent, null or the empty
    string starts no run and gets no reply: the world after the message is the
    world before it. *)
Theorem empty_audio_is_skipped client_id fields b w :
  assoc "type" fields = Some (JStr "audio") →
  assoc "audio_data" fields = None
  ∨ assoc "audio_data" fields = Some JNull
  ∨ assoc "audio_data" fields = Some (JStr "") →
  run (handle_message b64decode b64encode client_id (Decoded (JObj fields)) b) w
  = (Ok (), w).
Proof.
  intros Hty Had. unfold handle_message.
  rewrite (dispatch_skips _ _ (JStr "audio")); [done|by simpl; rewrite Hty|].
  intros _. simpl. destruct Had as [-> | [-> | ->]]; by eexists.
Qed.

End RelayFacts.

(** ** Sessions do not disturb one another *)

Lemma perform_frame {X} (o : op X) (P : string → Prop) F L T q :
  (∀ path, op_path o = Some path → P path) →
  ¬ P q →
  files (perform o (World F L T)).2 !! q = F !! q.
Proof.
  intros HP Hq.
  destruct o; simpl; try done.
  - apply lookup_insert_ne. intros ->. apply Hq, HP. done.
  - apply lookup_insert_ne. intros ->. apply Hq, HP. done.
  - by destruct (F !! path).
  - destruct (F !! path) eqn:HF; simpl; [|done].
    apply lookup_delete_ne. intros ->. apply Hq, HP. done.
  - by destruct L as [[[|n]|]|].
  - by destruct (whisper b (F !! audio_path)).
Qed.

Lemma perform_local {X} (o : op X) (P : string → Prop) F1 F2 L T :
  (∀ path, op_path o = Some path → P path) →
  agree_on P F1 F2 →
  (perform o (World F1 L T)).1 = (perform o (World F2 L T)).1
  ∧ link (perform o (World F1 L T)).2 = link (perform o (World F2 L T)).2
  ∧ trace (perform o (World F1 L T)).2 = trace (perform o (World F2 L T)).2
  ∧ agree_on P (files (perform o (World F1 L T)).2) (files (perform o (World F2 L T)).2).
Proof.
  intros HP Hagree.
  destruct o; simpl; try done.
  - repeat split; try done. intros q Hq.
    destruct (decide (path = q)) as [->|]; [by rewrite !lookup_insert_eq|].
    rewrite !lookup_insert_ne by done. by apply Hagree.
  - rewrite (Hagree path) by (by apply HP).
    repeat split; try done. intros q Hq.
    destruct (decide (path = q)) as [->|]; [by rewrite !lookup_insert_eq|].
    rewrite !lookup_insert_ne by done. by apply Hagree.
  - rewrite (Hagree path) by (by apply HP). by destruct (F2 !! path).
  - rewrite (Hagree path) by (by apply HP).
    destruct (F2 !! path); simpl; [|done].
    repeat split; try done. intros q Hq.
    destruct (decide (path = q)) as [->|]; [by rewrite !lookup_delete_eq|].
    rewrite !lookup_delete_ne by done. by apply Hagree.
  - by destruct L as [[[|n]|]|].
  - rewrite (Hagree audio_path) by (by apply HP).
    by destruct (whisper b (F2 !! audio_path)).
Qed.

Lemma advance_within (P : string → Prop) F s :
  within P (todo s) → within P (todo (advance F s).2).
Proof.
  unfold advance. destruct s as [L T [a|e|X o k]]; simpl; try done.
  intros [_ Hk]. destruct (perform o (World F L T)) as [r w']. apply Hk.
Qed.

(** A step of a session leaves the files of the others alone. *)
Lemma advance_frame (P : string → Prop) F s q :
  within P (todo s) → ¬ P q → (advance F s).1 !! q = F !! q.
Proof.
  unfold advance. destruct s as [L T [a|e|X o k]]; simpl; try done.
  intros [HP _] Hq.
  pose proof (perform_frame o P F L T q HP Hq) as H.
  by destruct (perform o (World F L T)) as [r w'].
Qed.

(** A step of a session depends on its own files only. *)
Lemma advance_local (P : string → Prop) F1 F2 s :
  within P (todo s) → agree_on P F1 F2 →
  (advance F1 s).2 = (advance F2 s).2
  ∧ agree_on P (advance F1 s).1 (advance F2 s).1.
Proof.
  unfold advance. destruct s as [L T [a|e|X o k]]; simpl; try done.
  intros [HP _] Hagree.
  destruct (perform_local o P F1 F2 L T HP Hagree) as (Hr & Hl & Ht & Hf).
  destruct (perform o (World F1 L T)) as [r1 w1],
           (perform o (World F2 L T)) as [r2 w2]. simpl in *.
  by rewrite Hr, Hl, Ht.
Qed.

Lemma turns_cons i j schedule :
  turns j (i :: schedule)
  = if decide (i = j) then S (turns j schedule) else turns j schedule.
Proof.
  unfold turns. simpl.
  destruct (decide (i = j)) as [->|Hne].
  - by rewrite Nat.eqb_refl.
  - apply Nat.eqb_neq in Hne. by rewrite Nat.eqb_sym, Hne.
Qed.

(** Whatever the scheduler does, a session of the pool goes through the states
    it would go through alone, as long as no two sessions own a common path. *)
Lemma pool_run_solo (own : nat → string → Prop) schedule :
  (∀ i j path, i ≠ j → own i path → own j path → False) →
  ∀ F pool j sj Fj,
    (∀ i s, pool !! i = Some s → within (own i) (todo s)) →
    pool !! j = Some sj →
    agree_on (own j) F Fj →
    (pool_run schedule (F, pool)).2 !! j
    = Some (solo (turns j schedule) Fj sj).2.
Proof.
  intros Hdisj. induction schedule as [|i schedule IH];
    intros F pool j sj Fj Hwithin Hj Hagree; [done|].
  unfold pool_run in *. cbn [foldl]. rewrite turns_cons.
  unfold pool_step at 2. cbn [fst snd].
  destruct (decide (i = j)) as [->|Hij].
  - rewrite Hj. cbn [solo].
    destruct (advance_local (own j) F Fj sj (Hwithin j sj Hj) Hagree) as [Hs Hf].
    pose proof (advance_within (own j) F sj (Hwithin j sj Hj)) as Hw.
    destruct (advance F sj) as [F1 s1], (advance Fj sj) as [Fj1 sj1].
    simpl in Hs, Hf, Hw. subst sj1.
    apply IH; [|by apply list_lookup_insert_eq, lookup_lt_is_Some|done].
    intros i s Hi. destruct (decide (i = j)) as [->|Hne].
    + rewrite list_lookup_insert_eq in Hi by (by apply lookup_lt_is_Some).
      by inversion Hi; subst.
    + rewrite list_lookup_insert_ne in Hi by done. by apply Hwithin.
  - destruct (pool !! i) as [si|] eqn:Hi; [|by apply IH].
    pose proof (advance_within (own i) F si (Hwithin i si Hi)) as Hw.
    assert (agree_on (own j) (advance F si).1 Fj) as Hagree'.
    { intros q Hq. rewrite <- (Hagree q Hq).
      apply (advance_frame (own i)); [by apply Hwithin|].
      intros Hq'. by apply (Hdisj i j q). }
    destruct (advance F si) as [F1 s1]. simpl in Hw, Hagree'.
    apply IH; [|by rewrite list_lookup_insert_ne|done].
    intros i' s Hi'. destruct (decide (i' = i)) as [->|Hne].
    + rewrite list_lookup_insert_eq in Hi' by (by apply lookup_lt_is_Some).
      by inversion Hi'; subst.
    + rewrite list_lookup_insert_ne in Hi' by done. by apply Hwithin.
Qed.

Lemma solo_finished n F s : finished s → solo n F s = (F, s).
Proof.
  intros Hs. induction n as [|n IH]; [done|].
  simpl. unfold advance. unfold finished in Hs.
  destruct s as [L T [a|e|X o k]]; simpl in *; try done.
Qed.

(** A session alone gets to the end of its coroutine, in the state [run]
    computes. *)
Lemma solo_run (m : coro unit) F L T :
  ∃ n, ∀ k, (n ≤ k)%nat →
    solo k F (Session L T m)
    = ((files (run m (World F L T)).2),
       Session (link (run m (World F L T)).2) (trace (run m (World F L T)).2)
               (lift (run m (World F L T)).1)).
Proof.
  revert F L T. induction m as [a|e|X o k IH]; intros F L T.
  - exists 0%nat. intros k _. by rewrite solo_finished.
  - exists 0%nat. intros k _. by rewrite solo_finished.
  - simpl. destruct (perform o (World F L T)) as [r [F1 L1 T1]] eqn:Ho.
    destruct (IH r F1 L1 T1) as [n Hn].
    exists (S n). intros [|k'] Hk; [lia|].
    simpl. unfold advance. simpl. rewrite Ho. simpl.
    apply Hn. lia.
Qed.

(** *** Where the coroutines of the server touch the disk *)

Lemma within_bind (P : string → Prop) {A B} (m : coro A) (f : A → coro B) :
  within P m → (∀ a, within P (f a)) → within P (m ≫= f).
Proof.
  intros Hm Hf. induction m as [a|e|X o k IH]; simpl in *; [apply Hf|done|].
  destruct Hm as [HP Hk]. split; [done|]. intros r. by apply IH.
Qed.

Lemma within_try (P : string → Prop) {A} (m : coro A) (h : exn → coro A) :
  within P m → (∀ e, within P (h e)) → within P (try_except m h).
Proof.
  intros Hm Hh. induction m as [a|e|X o k IH]; simpl in *; [done|apply Hh|].
  destruct Hm as [HP Hk]. split; [done|]. intros r. by apply IH.
Qed.

Lemma within_mono (P Q : string → Prop) {A} (m : coro A) :
  (∀ path, P path → Q path) → within P m → within Q m.
Proof.
  intros HPQ. induction m as [a|e|X o k IH]; simpl; [done|done|].
  intros [HP Hk]. split; [by auto|]. intros r. by apply IH.
Qed.

Lemma within_lift (P : string → Prop) {A} (r : result A) : within P (lift r).
Proof. by destruct r. Qed.

Lemma within_call (P : string → Prop) {X} (o : op X) :
  (∀ path, op_path o = Some path → P path) → within P (call o).
Proof. intros HP. split; [done|]. intros r. apply within_lift. Qed.

Lemma within_log (P : string → Prop) lvl line : within P (log lvl line).
Proof. by apply within_call. Qed.

Ltac within_step :=
  first
    [ apply within_bind; [|intros ?]
    | apply within_try; [|intros ?]
    | apply within_log
    | apply within_lift
    | apply within_call; simpl; intros ? [= <-]; auto
    | apply within_call; simpl; intros ? [=]
    | exact I ].

Lemma transcribe_within (P : string → Prop) b path :
  P path → within P (transcribe b path).
Proof. intros HP. unfold transcribe. repeat within_step. Qed.

Lemma generate_response_within (P : string → Prop) b text :
  within P (generate_response b text).
Proof.
  unfold generate_response. apply within_try; [|intros e; repeat within_step].
  apply within_bind; [repeat within_step|]. intros _.
  destruct (groq b text) as [response|e]; [|exact I].
  destruct (bool_decide (status response ≠ 200)); repeat within_step.
Qed.

Lemma write_chunks_within (P : string → Prop) path chunks :
  P path → within P (write_chunks path chunks).
Proof.
  intros HP. induction chunks as [|chunk rest IH]; [exact I|].
  cbn [write_chunks]. apply within_bind; [|by intros _].
  within_step.
Qed.

Lemma synthesize_within (P : string → Prop) b text path :
  P path → within P (synthesize b text path).
Proof.
  intros HP. unfold synthesize. apply within_try; [|intros e; repeat within_step].
  do 2 (apply within_bind; [repeat within_step|]; intros _).
  destruct (eleven b text) as [e|chunks broke]; [exact I|].
  apply within_bind; [within_step|]. intros _.
  apply within_bind; [by apply write_chunks_within|]. intros _.
  destruct broke; [exact I|]. repeat within_step.
Qed.

Lemma list_ascii_of_string_app s1 s2 :
  String.list_ascii_of_string (s1 +:+ s2) = String.list_ascii_of_string s1 ++ String.list_ascii_of_string s2.
Proof. induction s1 as [|c s1 IH]; simpl; [done|by rewrite IH]. Qed.

Lemma string_app_cancel s1 s2 t1 t2 :
  String.length t1 = String.length t2 →
  s1 +:+ t1 = s2 +:+ t2 → s1 = s2 ∧ t1 = t2.
Proof.
  intros Hlen Heq.
  apply (f_equal String.list_ascii_of_string) in Heq.
  rewrite !list_ascii_of_string_app in Heq.
  apply app_inj_2 in Heq as [H1 H2].
  - apply (f_equal String.string_of_list_ascii) in H1, H2.
    by rewrite !String.string_of_list_ascii_of_string in H1, H2.
  - clear Heq. revert t2 Hlen.
    induction t1 as [|c t1 IH]; intros [|c2 t2]; simpl; try done.
    intros [= H]. f_equal. by apply IH.
Qed.

(** The temporary files of two clients are different files. *)
Lemma owned_by_one client_id1 client_id2 path :
  owned_by client_id1 path → owned_by client_id2 path → client_id1 = client_id2.
Proof.
  unfold owned_by, audio_file_of, tts_output_of, in_dir.
  intros [-> | ->] [H | H];
    repeat (apply (inj (String.app _)) in H);
    apply string_app_cancel in H as [H1 H2]; try done;
    by apply (inj pretty) in H1.
Qed.

Section Isolation.

Variable b64decode : string → option bytes.
Variable b64encode : bytes → string.

Lemma pipeline_within client_id data b :
  within (owned_by client_id) (pipeline b64decode b64encode client_id data b).
Proof.
  assert (owned_by client_id (audio_file_of client_id)) as Hwav by (by left).
  assert (owned_by client_id (tts_output_of client_id)) as Htts by (by right).
  unfold pipeline.
  do 5 (apply within_bind; [within_step|]; intros ?).
  apply within_bind; [by apply transcribe_within|]. intros text.
  apply within_bind; [within_step|]. intros _.
  apply within_bind; [apply generate_response_within|]. intros response_text.
  apply within_bind; [within_step|]. intros _.
  apply within_bind; [by apply synthesize_within|]. intros synthesized.
  apply within_bind; [destruct synthesized; repeat within_step|]. intros _.
  repeat within_step.
Qed.

Lemma handle_message_within client_id message b :
  within (owned_by client_id) (handle_message b64decode b64encode client_id message b).
Proof.
  unfold handle_message, dispatch.
  apply within_try; [|intros e; destruct e; apply within_log].
  do 2 (apply within_bind; [within_step|]; intros ?).
  apply within_bind.
  - destruct (py_eq_str _ _); repeat within_step.
  - intros [|]; [apply pipeline_within|exact I].
Qed.

Lemma message_loop_within client_id inbox :
  within (owned_by client_id) (message_loop b64decode b64encode client_id inbox).
Proof.
  induction inbox as [|[message b] rest IH]; [exact I|].
  cbn [message_loop].
  apply within_bind; [apply handle_message_within|]. by intros _.
Qed.

Lemma handle_client_within client_id path inbox ending :
  within (owned_by client_id)
    (handle_client b64decode b64encode client_id path inbox ending).
Proof.
  unfold handle_client. apply within_bind; [apply within_log|]. intros _.
  apply within_try.
  - apply within_bind; [apply message_loop_within|]. intros _. by destruct ending.
  - intros e. destruct e; try exact I. apply within_log.
Qed.

(** C8.  In a pool of sessions with distinct identifiers, whatever the
    scheduler does and whatever the other sessions receive or suffer (garbled
    messages, failing engines, a peer that goes away), a session that gets
    enough turns finishes its coroutine with the connection state and the
    trace, envelope by envelope, that it has when it runs alone. *)
Theorem sessions_are_isolated (conns : list connection) (j : nat) (c : connection)
    (F : gmap string bytes) :
  NoDup (conn_id <$> conns) →
  conns !! j = Some c →
  let alone := run (todo (serve b64decode b64encode c)) (World F (conn_link c) []) in
  ∃ n, ∀ schedule, (n ≤ turns j schedule)%nat →
    ∃ s, (pool_run schedule (F, serve b64decode b64encode <$> conns)).2 !! j = Some s
       ∧ finished s
       ∧ own_link s = link alone.2
       ∧ own_trace s = trace alone.2.
Proof.
  intros Hids Hj alone.
  destruct (solo_run (todo (serve b64decode b64encode c)) F (conn_link c) []) as [n Hn].
  exists n. intros schedule Hturns.
  set (own := λ (i : nat) (path : string),
         ∃ ci, conns !! i = Some ci ∧ owned_by (conn_id ci) path).
  rewrite (pool_run_solo own schedule) with (sj := serve b64decode b64encode c) (Fj := F).
  - pose proof (Hn _ Hturns) as Hsolo.
    change (Session (conn_link c) [] (todo (serve b64decode b64encode c)))
      with (serve b64decode b64encode c) in Hsolo.
    rewrite Hsolo. fold alone. eexists. split; [done|].
    split; [|done]. unfold finished. simpl. by destruct alone.1.
  - intros i1 i2 path Hne (c1 & H1 & Ho1) (c2 & H2 & Ho2).
    apply Hne. eapply NoDup_lookup; [exact Hids|..].
    + by rewrite list_lookup_fmap, H1.
    + rewrite list_lookup_fmap, H2. simpl. f_equal. symmetry.
      by eapply owned_by_one.
  - intros i s Hi. rewrite list_lookup_fmap in Hi.
    destruct (conns !! i) as [ci|] eqn:Hci; [|done].
    injection Hi as <-. unfold serve. cbn [todo].
    assert (∀ path, owned_by (conn_id ci) path → own i path) as Hsub
      by (intros path Hp; by exists ci).
    apply (within_mono (owned_by (conn_id ci))); [done|].
    apply handle_client_within.
  - by rewrite list_lookup_fmap, Hj.
  - done.
Qed.

End Isolation.

(** ** Cleanup *)

(** C3 does not hold of the code.  When the peer goes away during a run, the
    [send] that fails ends the run in the generic handler, and the two
    [unlink] calls at the end of the pipeline are not reached: the staged audio
    file is still on disk, and neither file has been unlinked. *)
Theorem staged_audio_survives_cut_run b64decode b64encode client_id data s raw b w :
  audio_request data s → s ≠ "" →
  b64decode s = Some raw →
  ¬ can_send 3 (link w) →
  ∃ F' l, run (handle_message b64decode b64encode client_id (Decoded data) b) w
          = (Ok (), World F' Down (trace w ++ l))
        ∧ F' !! audio_file_of client_id = Some raw
        ∧ releases (audio_file_of client_id) l = 0%nat
        ∧ releases (tts_output_of client_id) l = 0%nat.
Proof.
  intros Hreq Hs Hraw Hlink.
  destruct (pipeline_cut b64decode b64encode client_id data s raw b w
              (audio_request_getitem _ _ Hreq) Hraw Hlink)
    as (F' & l & E & HF & Hwav & Htts).
  exists F', (l ++ [Logged ERROR [Lit "Error processing message: "; Exc ConnectionClosed]]).
  unfold handle_message. rewrite (dispatch_audio _ _ _ _ s) by done.
  rewrite run_try, E. simpl. rewrite <- app_assoc.
  split; [done|]. split; [done|].
  rewrite !releases_app, Hwav, Htts. done.
Qed.

(** ** The client *)

(** C10.  An envelope whose [type] is [error] matches none of the three
    branches of [receive_messages]: the client logs nothing, plays nothing and
    goes on with the next message. *)
Theorem client_drops_error_envelope b64decode playback fields rest w :
  assoc "type" fields = Some (JStr "error") →
  run (on_message b64decode playback (Decoded (JObj fields))) w = (Ok (), w)
  ∧ run (receive_loop b64decode playback (Decoded (JObj fields) :: rest)) w
    = run (receive_loop b64decode playback rest) w.
Proof.
  intros Hty.
  assert (on_message b64decode playback (Decoded (JObj fields)) = Return ()) as E.
  { unfold on_message. simpl. by rewrite Hty. }
  cbn [receive_loop]. by rewrite E.
Qed.

(** ** The theorems at sample inputs *)

(** A run of client 7 on the clip [RIFF] with a transcription engine that
    raises. *)
Lemma transcription_failure_is_passed_on_witness :
  audio_request (Sample.audio_message "UklGRg==") "UklGRg=="
  ∧ Sample.b64decode "UklGRg==" = Some Sample.riff
  ∧ can_send 3 (link blank)
  ∧ whisper Sample.deaf (Some Sample.riff) = WhisperRaised (EngineError "decoder")
  ∧ ∃ l, (run (handle_message Sample.b64decode Sample.b64encode 7
                 (Decoded (Sample.audio_message "UklGRg==")) Sample.deaf) blank).2
         = World (delete (tts_output_of 7) (delete (audio_file_of 7) (files blank)))
                 (spend 3 (link blank)) (trace blank ++ l)
       ∧ sent_of l = [transcription_envelope "";
                      response_envelope (reply Sample.deaf "");
                      closing_envelope Sample.b64encode
                        (eleven Sample.deaf (reply Sample.deaf ""))]
       ∧ calls_of l = [Whisper (audio_file_of 7); Groq "";
                       Eleven (reply Sample.deaf "") (tts_output_of 7)].
Proof.
  split; [by split|]. split; [reflexivity|]. split; [exact I|]. split; [reflexivity|].
  apply (transcription_failure_is_passed_on Sample.b64decode Sample.b64encode 7
           (Sample.audio_message "UklGRg==") "UklGRg==" Sample.riff Sample.deaf blank
           (EngineError "decoder")).
  - by split.
  - discriminate.
  - reflexivity.
  - exact I.
  - reflexivity.
Defined.

(** C1 as the specification states it fails: the transcription engine
    raises, and yet the run sends no [error] envelope and invokes both later
    stages. *)
Lemma transcription_failure_counterexample :
  whisper Sample.deaf (Some Sample.riff) = WhisperRaised (EngineError "decoder")
  ∧ sent_of (trace (run (handle_message Sample.b64decode Sample.b64encode 7
                           (Decoded (Sample.audio_message "UklGRg==")) Sample.deaf)
                      blank).2)
    = [transcription_envelope ""; response_envelope (JStr "Hi"); audio_envelope "SUQz"]
  ∧ calls_of (trace (run (handle_message Sample.b64decode Sample.b64encode 7
                            (Decoded (Sample.audio_message "UklGRg==")) Sample.deaf)
                       blank).2)
    = [Whisper Sample.wav7; Groq ""; Eleven (JStr "Hi") Sample.mp37].
Proof. vm_compute. repeat split. Qed.



(** A run of client 7 whose peer takes one envelope and goes away. *)
Lemma staged_audio_survives_cut_run_witness :
  audio_request (Sample.audio_message "UklGRg==") "UklGRg=="
  ∧ Sample.b64decode "UklGRg==" = Some Sample.riff
  ∧ ¬ can_send 3 (Up (Some 1%nat))
  ∧ ∃ F' l, run (handle_message Sample.b64decode Sample.b64encode 7
                   (Decoded (Sample.audio_message "UklGRg==")) Sample.healthy)
              (World ∅ (Up (Some 1%nat)) [])
            = (Ok (), World F' Down (trace (World ∅ (Up (Some 1%nat)) []) ++ l))
          ∧ F' !! audio_file_of 7 = Some Sample.riff
          ∧ releases (audio_file_of 7) l = 0%nat
          ∧ releases (tts_output_of 7) l = 0%nat.
Proof.
  split; [by split|]. split; [reflexivity|]. split; [simpl; lia|].
  apply (staged_audio_survives_cut_run Sample.b64decode Sample.b64encode 7
           (Sample.audio_message "UklGRg==") "UklGRg==" Sample.riff Sample.healthy
           (World ∅ (Up (Some 1%nat)) [])).
  - by split.
  - discriminate.
  - reflexivity.
  - simpl. lia.
Defined.

(** The run of C3's failing input, evaluated: the peer takes the
    [transcription] envelope and is gone before the [response]; the staged clip
    is still in the temporary directory afterwards. *)
Lemma cut_run_evaluated :
  let w' := (run (handle_message Sample.b64decode Sample.b64encode 7
                    (Decoded (Sample.audio_message "UklGRg==")) Sample.healthy)
               (World ∅ (Up (Some 1%nat)) [])).2 in
  files w' !! Sample.wav7 = Some Sample.riff
  ∧ link w' = Down
  ∧ outward (trace w')
    = [Created Sample.wav7; Invoked (Whisper Sample.wav7);
       Sent (transcription_envelope " Hello  there"); Invoked (Groq " Hello  there")].
Proof. vm_compute. repeat split. Qed.



(** A run of client 7 whose request to the response engine times out. *)
Lemma generation_failure_sends_fallback_witness :
  audio_request (Sample.audio_message "UklGRg==") "UklGRg=="
  ∧ Sample.b64decode "UklGRg==" = Some Sample.riff
  ∧ can_send 3 (link blank)
  ∧ generation_failed (groq Sample.speechless (transcript Sample.speechless
                                                (Some Sample.riff)))
  ∧ ∃ l fallback closing,
      trace (run (handle_message Sample.b64decode Sample.b64encode 7
                    (Decoded (Sample.audio_message "UklGRg==")) Sample.speechless)
               blank).2
      = trace blank ++ l
      ∧ (fallback = "Sorry, I couldn't process your request."
         ∨ fallback = "Network error occurred.")
      ∧ sent_of l = [transcription_envelope (transcript Sample.speechless
                                               (Some Sample.riff));
                     response_envelope (JStr fallback); closing]
      ∧ kind_of (response_envelope (JStr fallback)) = Some "response".
Proof.
  split; [by split|]. split; [reflexivity|]. split; [exact I|]. split; [exact I|].
  apply (generation_failure_sends_fallback Sample.b64decode Sample.b64encode 7
           (Sample.audio_message "UklGRg==") "UklGRg==" Sample.riff
           Sample.speechless blank).
  - by split.
  - discriminate.
  - reflexivity.
  - exact I.
  - exact I.
Defined.

(** A run of client 7 whose synthesis engine raises. *)
Lemma synthesis_failure_follows_response_witness :
  audio_request (Sample.audio_message "UklGRg==") "UklGRg=="
  ∧ Sample.b64decode "UklGRg==" = Some Sample.riff
  ∧ can_send 3 (link blank)
  ∧ synthesis_failed (eleven Sample.mute
                        (reply Sample.mute (transcript Sample.mute (Some Sample.riff))))
  ∧ ∃ l, run (handle_message Sample.b64decode Sample.b64encode 7
                (Decoded (Sample.audio_message "UklGRg==")) Sample.mute) blank
         = (Ok (), World (delete (tts_output_of 7)
                            (delete (audio_file_of 7) (files blank)))
                         (spend 3 (link blank)) (trace blank ++ l))
       ∧ sent_of l = [transcription_envelope (transcript Sample.mute (Some Sample.riff));
                      response_envelope
                        (reply Sample.mute (transcript Sample.mute (Some Sample.riff)));
                      error_envelope "TTS synthesis failed."]
       ∧ calls_of l = [Whisper (audio_file_of 7);
                       Groq (transcript Sample.mute (Some Sample.riff));
                       Eleven (reply Sample.mute
                                 (transcript Sample.mute (Some Sample.riff)))
                         (tts_output_of 7)].
Proof.
  split; [by split|]. split; [reflexivity|]. split; [exact I|]. split; [reflexivity|].
  apply (synthesis_failure_follows_response Sample.b64decode Sample.b64encode 7
           (Sample.audio_message "UklGRg==") "UklGRg==" Sample.riff Sample.mute blank).
  - by split.
  - discriminate.
  - reflexivity.
  - exact I.
  - reflexivity.
Defined.

(** A run of client 7 on a clip in which the engine hears nothing. *)
Lemma silence_is_passed_through_witness :
  audio_request (Sample.audio_message "UklGRg==") "UklGRg=="
  ∧ Sample.b64decode "UklGRg==" = Some Sample.riff
  ∧ can_send 3 (link blank)
  ∧ whisper Sample.quiet (Some Sample.riff) = Heard []
  ∧ String.concat " " [] = ""
  ∧ ∃ l, trace (run (handle_message Sample.b64decode Sample.b64encode 7
                       (Decoded (Sample.audio_message "UklGRg==")) Sample.quiet)
                  blank).2
         = trace blank ++ l
       ∧ sent_of l = [transcription_envelope "";
                      response_envelope (reply Sample.quiet "");
                      closing_envelope Sample.b64encode
                        (eleven Sample.quiet (reply Sample.quiet ""))]
       ∧ calls_of l = [Whisper (audio_file_of 7); Groq "";
                       Eleven (reply Sample.quiet "") (tts_output_of 7)].
Proof.
  split; [by split|]. split; [reflexivity|]. split; [exact I|].
  split; [reflexivity|]. split; [reflexivity|].
  apply (silence_is_passed_through Sample.b64decode Sample.b64encode 7
           (Sample.audio_message "UklGRg==") "UklGRg==" Sample.riff Sample.quiet blank []).
  - by split.
  - discriminate.
  - reflexivity.
  - exact I.
  - reflexivity.
  - reflexivity.
Defined.

(** An [audio] message with the empty string as its payload. *)
Lemma empty_audio_is_skipped_witness :
  assoc "type" [("type", JStr "audio"); ("audio_data", JStr "")] = Some (JStr "audio")
  ∧ assoc "audio_data" [("type", JStr "audio"); ("audio_data", JStr "")]
    = Some (JStr "")
  ∧ run (handle_message Sample.b64decode Sample.b64encode 7
           (Decoded (JObj [("type", JStr "audio"); ("audio_data", JStr "")]))
           Sample.healthy) blank
    = (Ok (), blank).
Proof.
  split; [reflexivity|]. split; [reflexivity|].
  apply (empty_audio_is_skipped Sample.b64decode Sample.b64encode 7
           [("type", JStr "audio"); ("audio_data", JStr "")] Sample.healthy blank).
  - reflexivity.
  - right. right. reflexivity.
Defined.

(** The [error] envelope of a failed synthesis, as the client receives it. *)
Lemma client_drops_error_envelope_witness :
  assoc "type" Sample.error_fields = Some (JStr "error")
  ∧ run (on_message Sample.b64decode Sample.playback
           (Decoded (JObj Sample.error_fields))) blank
    = (Ok (), blank)
  ∧ run (receive_loop Sample.b64decode Sample.playback
           [Decoded (JObj Sample.error_fields)]) blank
    = run (receive_loop Sample.b64decode Sample.playback []) blank.
Proof.
  split; [reflexivity|].
  apply (client_drops_error_envelope Sample.b64decode Sample.playback
           Sample.error_fields [] blank).
  reflexivity.
Defined.

(** The second of two sample sessions, under every schedule. *)
Lemma sessions_are_isolated_witness :
  NoDup (conn_id <$> [Sample.first_client; Sample.second_client])
  ∧ [Sample.first_client; Sample.second_client] !! 1%nat = Some Sample.second_client
  ∧ ∃ n, ∀ schedule, (n ≤ turns 1 schedule)%nat →
      ∃ s, (pool_run schedule
              (∅, serve Sample.b64decode Sample.b64encode
                  <$> [Sample.first_client; Sample.second_client])).2 !! 1%nat
           = Some s
         ∧ finished s
         ∧ own_link s
           = link (run (todo (serve Sample.b64decode Sample.b64encode
                                Sample.second_client))
                     (World ∅ (conn_link Sample.second_client) [])).2
         ∧ own_trace s
           = trace (run (todo (serve Sample.b64decode Sample.b64encode
                                 Sample.second_client))
                      (World ∅ (conn_link Sample.second_client) [])).2.
Proof.
  assert (NoDup (conn_id <$> [Sample.first_client; Sample.second_client])) as Hids.
  { apply (bool_decide_unpack _). vm_compute. exact I. }
  split; [exact Hids|]. split; [reflexivity|].
  apply (sessions_are_isolated Sample.b64decode Sample.b64encode
           [Sample.first_client; Sample.second_client] 1 Sample.second_client ∅).
  - exact Hids.
  - reflexivity.
Defined.

(** The two sample sessions under one schedule: the first one loses its
    connection during its run and leaves its clip behind; the second one sends
    its three envelopes all the same. *)
Lemma interleaved_sessions_evaluated :
  let st := pool_run (concat (replicate 40 [0; 1; 0]))%nat
              (∅, serve Sample.b64decode Sample.b64encode
                  <$> [Sample.first_client; Sample.second_client]) in
  (sent_of ∘ own_trace <$> st.2)
  = [[transcription_envelope " Hello  there"];
     [transcription_envelope " Hello  there"; response_envelope (JStr "Hi");
      audio_envelope "SUQz"]]
  ∧ st.1 !! Sample.wav7 = Some Sample.riff
  ∧ st.1 !! "temp_audio/client_8.wav" = None
  ∧ st.1 !! "temp_audio/client_8.mp3" = None.
Proof. vm_compute. repeat split. Qed.

(** * Further properties of the two programs *)

(** ** The adapters of the server *)

(** X1.  [transcribe] never raises: it returns the segments joined by single
    spaces, or the empty string when the engine raises; it sends nothing and
    leaves the files and the connection as they are. *)
Theorem transcribe_never_raises b path w :
  ∃ l, run (transcribe b path) w
       = (Ok match whisper b (files w !! path) with
             | Heard segments => String.concat " " segments
             | WhisperRaised _ => ""
             end,
          World (files w) (link w) (trace w ++ l))
     ∧ sent_of l = [] ∧ calls_of l = [Whisper path].
Proof.
  destruct (transcribe_run b path w) as (l & E & O).
  exists l. split; [exact E|].
  by rewrite <- (sent_of_outward l), <- (calls_of_outward l), O.
Qed.

(** X2.  On status 200, [generate_response] returns whatever JSON value sits at
    [choices[0].message.content] of the body, unchecked. *)
Theorem generate_response_returns_first_choice b text w response body content :
  groq b text = Responded response →
  status response = 200 →
  json_body response = Ok body →
  first_choice_content body = Ok content →
  ∃ l, run (generate_response b text) w
       = (Ok content, World (files w) (link w) (trace w ++ l))
     ∧ outward l = [Invoked (Groq text)].
Proof.
  intros Hgroq Hstatus Hbody Hcontent.
  destruct (generate_response_run b text w) as (l & E & O).
  exists l. split; [|exact O]. rewrite E. do 2 f_equal.
  unfold reply, generate_response. simpl. rewrite Hgroq. simpl.
  rewrite bool_decide_eq_false_2 by (by intros []).
  rewrite Hbody. simpl. unfold first_choice_content in Hcontent.
  destruct (py_getitem body "choices") as [choices|]; [simpl|done].
  destruct (py_first choices) as [choice|]; [simpl|done].
  destruct (py_getitem choice "message") as [message|]; [simpl|done].
  by rewrite Hcontent.
Qed.

(** X3.  A reply with status 200 whose body is not JSON, or has no
    [choices[0].message.content], is answered as if the network had failed. *)
Theorem generate_response_hides_malformed_reply b text w response e :
  groq b text = Responded response →
  status response = 200 →
  json_body response = Raise e
  ∨ (∃ body, json_body response = Ok body ∧ first_choice_content body = Raise e) →
  ∃ l, run (generate_response b text) w
       = (Ok (JStr "Network error occurred."), World (files w) (link w) (trace w ++ l))
     ∧ outward l = [Invoked (Groq text)].
Proof.
  intros Hgroq Hstatus Hbad.
  destruct (generate_response_run b text w) as (l & E & O).
  exists l. split; [|exact O]. rewrite E. do 2 f_equal.
  unfold reply, generate_response. simpl. rewrite Hgroq. simpl.
  rewrite bool_decide_eq_false_2 by (by intros []).
  destruct Hbad as [Hbody|(body & Hbody & Hcontent)]; rewrite Hbody; simpl; [done|].
  unfold first_choice_content in Hcontent.
  destruct (py_getitem body "choices") as [choices|]; [simpl|done].
  destruct (py_first choices) as [choice|]; [simpl|done].
  destruct (py_getitem choice "message") as [message|]; [simpl|done].
  by rewrite Hcontent.
Qed.

(** X4.  When the stream of the synthesis engine completes, [synthesize] returns
    [True] and the output file holds the chunks in the order they came,
    whatever was at that path before. *)
Theorem synthesize_writes_the_stream b text path w chunks :
  eleven b text = Streamed chunks None →
  ∃ l, run (synthesize b text path) w
       = (Ok true, World (<[path := concat chunks]> (files w)) (link w) (trace w ++ l))
     ∧ outward l = [Invoked (Eleven text path); Created path].
Proof.
  intros He. destruct (synthesize_streamed b text path w chunks None He) as (l & E & O).
  exists l. by rewrite E.
Qed.

(** X5.  When the synthesis engine fails, [synthesize] returns [False] rather than
    raising.  A failure at the call leaves the files as they are; a failure in
    mid-stream leaves the chunks received so far in the output file, which
    [synthesize] itself does not remove. *)
Theorem synthesize_failure_is_contained b text path w :
  synthesis_failed (eleven b text) →
  ∃ l, run (synthesize b text path) w
       = (Ok false,
          World match eleven b text with
                | ConvertRaised _ => files w
                | Streamed chunks _ => <[path := concat chunks]> (files w)
                end (link w) (trace w ++ l))
     ∧ sent_of l = [].
Proof.
  unfold synthesis_failed. intros Hfail.
  destruct (eleven b text) as [e|chunks [e|]] eqn:He; [| |done].
  - destruct (synthesize_raised b text path w e He) as (l & E & O).
    exists l. split; [done|]. by rewrite <- (sent_of_outward l), O.
  - destruct (synthesize_streamed b text path w chunks (Some e) He) as (l & E & O).
    exists l. split; [by rewrite E|]. by rewrite <- (sent_of_outward l), O.
Qed.

(** ** One message, whatever the state of the connection *)

Lemma staged_request b64decode data raw :
  staged b64decode (Decoded data) = Some raw →
  ∃ s, audio_request data s ∧ s ≠ "" ∧ b64decode s = Some raw.
Proof.
  unfold staged, audio_request.
  destruct (py_get data "type") as [type|] eqn:Hty; [|done].
  destruct (py_get data "audio_data") as [[| | | |s| |]|] eqn:Had; try done.
  destruct (py_eq_str type "audio") eqn:Heq; [|done].
  destruct (String.eqb s "") eqn:Hs; [done|]. simpl. intros Hraw.
  exists s. apply String.eqb_neq in Hs.
  destruct type as [| | | |t| |]; try done. simpl in Heq.
  apply String.eqb_eq in Heq as ->. done.
Qed.

Ltac run_send_now :=
  rewrite run_bind, run_call; cbn [perform files link trace].

Ltac cut_done O :=
  eexists _, _; split; [rewrite <- ?app_assoc; reflexivity|];
  rewrite <- (sent_of_outward (_ ++ _)), <- (calls_of_outward (_ ++ _)),
    !outward_app, ?O; split; reflexivity.

(** The run of a staged clip on a connection that does not take three sends:
    the envelopes that were accepted, and the engines that were called. *)
Lemma pipeline_cut_envelopes b64decode b64encode client_id data s raw b w :
  py_getitem data "audio_data" = Ok (JStr s) →
  b64decode s = Some raw →
  ¬ can_send 3 (link w) →
  let wav := audio_file_of client_id in
  let tts := tts_output_of client_id in
  let text := transcript b (Some raw) in
  let o := eleven b (reply b text) in
  let envelopes := [transcription_envelope text; response_envelope (reply b text);
                    closing_envelope b64encode o] in
  ∃ F' l, run (pipeline b64decode b64encode client_id data b) w
          = (Raise ConnectionClosed, World F' Down (trace w ++ l))
        ∧ sent_of l = deliverable (link w) envelopes
        ∧ calls_of l
          = take (S (length (deliverable (link w) envelopes)))
              [Whisper wav; Groq text; Eleven (reply b text) tts].
Proof.
  intros Hdata Hraw Hlink wav tts text o envelopes.
  destruct w as [F L T]. cbn [files link trace] in *.
  run_staging Hdata Hraw. fold wav. fold tts. clearbody wav tts.
  run_step (transcribe_run b wav).
  rewrite lookup_insert_eq. fold text.
  assert (L = Down ∨ L = Up (Some 0%nat) ∨ L = Up (Some 1%nat) ∨ L = Up (Some 2%nat))
    as [-> | [-> | [-> | ->]]].
  { destruct L as [[n|]|]; simpl in Hlink; [|done|by left].
    destruct n as [|[|[|n]]]; [auto..|lia]. }
  - run_send_now. cut_done O.
  - run_send_now. cut_done O.
  - run_send_now.
    run_step (generate_response_run b text).
    run_send_now.
    eexists _, _; split; [rewrite <- ?app_assoc; reflexivity|].
    rewrite <- (sent_of_outward (_ ++ _)), <- (calls_of_outward (_ ++ _)),
      !outward_app, O, O0. split; reflexivity.
  - run_send_now.
    run_step (generate_response_run b text).
    run_send_now.
    subst envelopes o.
    destruct (eleven b (reply b text)) as [e|chunks broke] eqn:Ho.
    + run_step (synthesize_raised b (reply b text) tts); [exact Ho|].
      run_send_now.
      eexists _, _; split; [rewrite <- ?app_assoc; reflexivity|].
      rewrite <- (sent_of_outward (_ ++ _)), <- (calls_of_outward (_ ++ _)),
        !outward_app, O, O0, O1. split; reflexivity.
    + run_step (synthesize_streamed b (reply b text) tts); [exact Ho|].
      destruct broke as [e|].
      * rewrite bool_decide_eq_false_2 by done.
        run_send_now.
        eexists _, _; split; [rewrite <- ?app_assoc; reflexivity|].
        rewrite <- (sent_of_outward (_ ++ _)), <- (calls_of_outward (_ ++ _)),
          !outward_app, O, O0, O1. split; reflexivity.
      * rewrite bool_decide_eq_true_2 by done.
        rewrite run_bind, run_bind, run_call. cbn [perform files link trace].
        rewrite lookup_insert_eq, run_call. cbn [perform files link trace].
        eexists _, _; split; [rewrite <- ?app_assoc; reflexivity|].
        rewrite <- (sent_of_outward (_ ++ _)), <- (calls_of_outward (_ ++ _)),
          !outward_app, O, O0, O1. split; reflexivity.
Qed.

Lemma handle_message_unstaged b64decode b64encode client_id message b w :
  staged b64decode message = None →
  ∃ F' l, run (handle_message b64decode b64encode client_id message b) w
          = (Ok (), World F' (link w) (trace w ++ l))
        ∧ sent_of l = [] ∧ calls_of l = [].
Proof.
  intros Hnone. unfold handle_message. rewrite run_try.
  destruct message as [raw|data]; [by eexists _, _|].
  unfold dispatch. cbn [json_loads lift]. 
  change (Return data ≫= ?f) with (f data). cbv beta.
  unfold staged in Hnone.
  destruct (py_get data "type") as [type|e] eqn:Hty; [|by destruct e; eexists _, _].
  cbn [lift]. change (Return type ≫= ?f) with (f type). cbv beta.
  destruct (py_eq_str type "audio") eqn:Haudio.
  2:{ exists (files w), []. rewrite app_nil_r. by destruct w. }
  destruct data as [| | | | | |fields]; try done.
  cbn [py_get] in *. cbn [lift].
  change (Return ?v ≫= ?f) with (f v). cbv beta.
  change (mret ?v ≫= ?f) with (f v). cbv beta.
  destruct (truthy (default JNull (assoc "audio_data" fields))) eqn:Htruthy.
  2:{ exists (files w), []. rewrite app_nil_r. by destruct w. }
  destruct (assoc "audio_data" fields) as [v|] eqn:Had; [|done]. cbn [default] in *.
  assert (∃ e, base64_b64decode b64decode v = Raise e) as [e Hbad].
  { destruct v as [| | | |s| |]; try by eexists.
    simpl in Htruthy. simpl in Hnone. rewrite Htruthy in Hnone. simpl in Hnone.
    simpl. rewrite Hnone. by eexists. }
  rewrite (pipeline_undecodable b64decode b64encode client_id (JObj fields) v e)
    by (done || by simpl; rewrite Had).
  destruct e; simpl; eexists _, _;
    (split; [rewrite <- app_assoc; reflexivity|split; reflexivity]).
Qed.

Lemma deliverable_all l envelopes :
  can_send (length envelopes) l → deliverable l envelopes = envelopes.
Proof.
  destruct l as [[n|]|]; simpl; [|done..].
  intros Hn. by apply take_ge.
Qed.

Lemma handle_message_envelopes b64decode b64encode client_id message b w :
  ∃ F' l, run (handle_message b64decode b64encode client_id message b) w
          = (Ok (), World F'
                      (link_after (length (answers b64decode b64encode message b))
                         (link w))
                      (trace w ++ l))
        ∧ sent_of l = deliverable (link w) (answers b64decode b64encode message b).
Proof.
  unfold answers.
  destruct (staged b64decode message) as [raw|] eqn:Hstaged.
  - destruct message as [?|data]; [done|].
    destruct (staged_request _ _ _ Hstaged) as (s & Hreq & Hs & Hraw).
    cbn [length]. unfold link_after.
    destruct (decide (can_send 3 (link w))) as [Hlink|Hlink].
    + destruct (served_run b64decode b64encode client_id data s raw b w Hreq Hs Hraw Hlink)
        as (l & E & Hsent & _).
      eexists _, l. split; [exact E|]. by rewrite deliverable_all.
    + destruct (pipeline_cut_envelopes b64decode b64encode client_id data s raw b w
                  (audio_request_getitem _ _ Hreq) Hraw Hlink)
        as (F' & l & E & Hsent & _).
      exists F', (l ++ [Logged ERROR [Lit "Error processing message: ";
                                      Exc ConnectionClosed]]).
      unfold handle_message. rewrite (dispatch_audio _ _ _ _ s) by done.
      rewrite run_try, E. simpl. rewrite <- app_assoc. split; [done|].
      by rewrite sent_of_app, Hsent, app_nil_r.
  - destruct (handle_message_unstaged b64decode b64encode client_id message b w Hstaged)
      as (F' & l & E & Hsent & _).
    exists F', l. split; [|by rewrite Hsent; destruct (link w) as [[[|n]|]|]].
    rewrite E. do 2 f_equal. unfold link_after. simpl.
    destruct (link w) as [[n|]|]; simpl; try done.
    by rewrite Nat.sub_0_r.
Qed.

(** X6.  For every message and every state of the connection, [handle_message]
    returns normally, and what it sends is the part of the message's answer
    that the connection accepts: an initial segment of [transcription],
    [response], [audio] or [error] for a staged clip, nothing otherwise. *)
Theorem every_message_is_answered_in_order b64decode b64encode client_id message b w :
  ∃ F' l, run (handle_message b64decode b64encode client_id message b) w
          = (Ok (), World F'
                      (link_after (length (answers b64decode b64encode message b))
                         (link w))
                      (trace w ++ l))
        ∧ sent_of l = deliverable (link w) (answers b64decode b64encode message b).
Proof. apply handle_message_envelopes. Qed.

(** ** A whole session *)

Lemma deliverable_app l envelopes more :
  deliverable l envelopes ++ deliverable (link_after (length envelopes) l) more
  = deliverable l (envelopes ++ more).
Proof.
  unfold link_after. destruct l as [[n|]|]; simpl; [|done..].
  rewrite take_app. f_equal.
  destruct (decide (length envelopes ≤ n)%nat) as [Hle|Hgt]; simpl; [done|].
  replace (n - length envelopes)%nat with 0%nat by lia. done.
Qed.

(** X7.  The envelopes of a session are the answers to its messages, in the order
    in which the messages came, up to the point where the peer stops
    accepting them; [handle_client] returns normally in every case. *)
Theorem session_sends_answers_in_order b64decode b64encode client_id path inbox
    ending w :
  ∃ F' L' l, run (handle_client b64decode b64encode client_id path inbox ending) w
             = (Ok (), World F' L' (trace w ++ l))
           ∧ sent_of l
             = deliverable (link w)
                 (concat ((λ mb, answers b64decode b64encode mb.1 mb.2) <$> inbox)).
Proof.
  assert (∀ inbox w,
            ∃ F' L' l, run (message_loop b64decode b64encode client_id inbox) w
                       = (Ok (), World F' L' (trace w ++ l))
                     ∧ sent_of l
                       = deliverable (link w)
                           (concat ((λ mb, answers b64decode b64encode mb.1 mb.2)
                                    <$> inbox))) as Hloop.
  { clear. intros inbox. induction inbox as [|[message b] rest IH]; intros w.
    - exists (files w), (link w), []. rewrite app_nil_r. split; [by destruct w|].
      by destruct (link w) as [[[|n]|]|].
    - cbn [message_loop fmap list_fmap concat fst snd].
      rewrite run_bind.
      destruct (handle_message_envelopes b64decode b64encode client_id
                  message b w) as (F1 & l1 & E1 & Hsent1).
      rewrite E1.
      destruct (IH (World F1 (link_after (length (answers b64decode b64encode message b))
                                (link w)) (trace w ++ l1)))
        as (F2 & L2 & l2 & E2 & Hsent2).
      cbn [link trace] in *.
      exists F2, L2, (l1 ++ l2). rewrite E2, app_assoc. split; [done|].
      by rewrite sent_of_app, Hsent1, Hsent2, deliverable_app. }
  unfold handle_client. rewrite run_bind, run_log, run_try, run_bind.
  set (hello := [Logged INFO [Lit "Client connected: "; Num (Z.of_N client_id);
                              Lit ", path: "; Lit path]]).
  destruct (Hloop inbox (World (files w) (link w) (trace w ++ hello)))
    as (F' & L' & l & E & Hsent).
  rewrite E. cbn [link trace] in *.
  destruct ending; simpl.
  - exists F', L', (hello ++ l). rewrite app_assoc. split; [done|].
    by rewrite sent_of_app.
  - exists F', L', (hello ++ l ++ [Logged INFO [Lit "Client disconnected: ";
                                                Num (Z.of_N client_id)]]).
    rewrite !app_assoc. split; [done|].
    by rewrite !sent_of_app, Hsent, app_nil_r.
Qed.

(** X8.  A send that fails does not end the session.  On a connection that
    takes no more sends, the loop still stages the next clip and has it
    transcribed; the [send] of the transcription fails, so nothing is sent and
    no later stage runs, the staged clip stays in the directory, and the loop
    goes on to the messages behind it. *)
Theorem dead_link_does_not_stop_the_loop b64decode b64encode client_id message b
    rest w raw :
  staged b64decode message = Some raw →
  ¬ can_send 1 (link w) →
  ∃ F' l, run (message_loop b64decode b64encode client_id ((message, b) :: rest)) w
          = run (message_loop b64decode b64encode client_id rest)
              (World F' Down (trace w ++ l))
        ∧ F' !! audio_file_of client_id = Some raw
        ∧ sent_of l = []
        ∧ calls_of l = [Whisper (audio_file_of client_id)].
Proof.
  intros Hstaged Hlink.
  destruct message as [?|data]; [done|].
  destruct (staged_request _ _ _ Hstaged) as (s & Hreq & Hs & Hraw).
  assert (¬ can_send 3 (link w)) as Hcut.
  { intros H3. apply Hlink. destruct (link w) as [[n|]|]; simpl in *; [lia|done..]. }
  destruct (pipeline_cut b64decode b64encode client_id data s raw b w
              (audio_request_getitem _ _ Hreq) Hraw Hcut)
    as (F' & l & E & HF & _).
  destruct (pipeline_cut_envelopes b64decode b64encode client_id data s raw b w
              (audio_request_getitem _ _ Hreq) Hraw Hcut)
    as (F2 & l2 & E2 & Hsent & Hcalls).
  rewrite E in E2. injection E2 as _ Hl. apply app_inv_head in Hl. subst l2.
  assert (deliverable (link w)
            [transcription_envelope (transcript b (Some raw));
             response_envelope (reply b (transcript b (Some raw)));
             closing_envelope b64encode
               (eleven b (reply b (transcript b (Some raw))))] = []) as Hnone.
  { destruct (link w) as [[[|n]|]|]; simpl in *; try done. destruct Hlink. lia. }
  rewrite Hnone in Hsent, Hcalls.
  exists F', (l ++ [Logged ERROR [Lit "Error processing message: ";
                                  Exc ConnectionClosed]]).
  split; [|split; [done|split]].
  - cbn [message_loop]. rewrite run_bind. unfold handle_message.
    rewrite (dispatch_audio _ _ _ _ s) by done.
    rewrite run_try, E. simpl. by rewrite <- app_assoc.
  - by rewrite sent_of_app, Hsent.
  - by rewrite calls_of_app, Hcalls.
Qed.

(** ** Payloads that cannot be staged, and other kinds of message *)

(** X9.  An [audio] message whose payload is truthy but is not a string of base64
    (a number, a list, a string that does not decode) gets no envelope and no
    engine call; the file opened for it stays behind, empty, and the failure
    is logged by the generic handler. *)
Theorem undecodable_payload_leaves_empty_file b64decode b64encode client_id fields v e
    b w :
  assoc "type" fields = Some (JStr "audio") →
  assoc "audio_data" fields = Some v →
  truthy v = true →
  base64_b64decode b64decode v = Raise e →
  run (handle_message b64decode b64encode client_id (Decoded (JObj fields)) b) w
  = (Ok (), World (<[audio_file_of client_id := []]> (files w)) (link w)
                  (trace w ++ [Created (audio_file_of client_id);
                               Logged ERROR [Lit "Error processing message: "; Exc e]])).
Proof.
  intros Hty Had Htruthy Hbad.
  unfold handle_message, dispatch. simpl. rewrite Hty, Had. simpl. rewrite Htruthy.
  rewrite run_try.
  rewrite (pipeline_undecodable b64decode b64encode client_id (JObj fields) v e)
    by (done || by simpl; rewrite Had).
  assert (e = ValueError ∨ e = TypeError) as [-> | ->].
  { destruct v as [| | | |s| |]; simpl in Hbad; try (injection Hbad as <-; by right).
    destruct (b64decode s); [done|]. injection Hbad as <-. by left. }
  - simpl. by rewrite <- app_assoc.
  - simpl. by rewrite <- app_assoc.
Qed.

(** X10.  A decoded object whose [type] is not the string [audio] (another kind, a
    value that is not a string, or no [type] at all) leaves the server as it
    is, whatever else the object carries. *)
Theorem other_kinds_are_ignored b64decode b64encode client_id fields b w :
  assoc "type" fields ≠ Some (JStr "audio") →
  run (handle_message b64decode b64encode client_id (Decoded (JObj fields)) b) w
  = (Ok (), w).
Proof.
  intros Hty. unfold handle_message.
  rewrite (dispatch_skips _ _ _ _ (default JNull (assoc "type" fields))); [done|done|].
  intros Haudio. destruct Hty.
  destruct (assoc "type" fields) as [[| | | |t| |]|]; try done.
  simpl in Haudio. by apply String.eqb_eq in Haudio as ->.
Qed.

(** ** The temporary files *)

Lemma run_frame (P : string → Prop) {A} (m : coro A) w q :
  within P m → ¬ P q → files (run m w).2 !! q = files w !! q.
Proof.
  revert w. induction m as [a|e|X o k IH]; intros w Hm Hq; [done|done|].
  simpl in *. destruct Hm as [HP Hk].
  pose proof (perform_frame o P (files w) (link w) (trace w) q HP Hq) as Hframe.
  destruct w as [F L T]. simpl in *.
  destruct (perform o (World F L T)) as [r w1]. simpl in *.
  rewrite IH by done. done.
Qed.

(** X11.  A session reads, writes and removes no file but the two that carry its
    identifier: every other file of the directory is after the session what it
    was before, whatever the session received. *)
Theorem session_touches_own_files_only b64decode b64encode client_id path inbox
    ending w q :
  q ≠ audio_file_of client_id →
  q ≠ tts_output_of client_id →
  files (run (handle_client b64decode b64encode client_id path inbox ending) w).2 !! q
  = files w !! q.
Proof.
  intros Hwav Htts.
  apply (run_frame (owned_by client_id)); [apply handle_client_within|].
  by intros [-> | ->].
Qed.

(** X12.  The names of the temporary files determine the client: two clients with
    different identifiers never share a file. *)
Theorem temp_paths_are_injective client_id1 client_id2 :
  (audio_file_of client_id1 = audio_file_of client_id2 → client_id1 = client_id2)
  ∧ (tts_output_of client_id1 = tts_output_of client_id2 → client_id1 = client_id2)
  ∧ audio_file_of client_id1 ≠ tts_output_of client_id2.
Proof.
  split; [|split].
  - intros H. apply (owned_by_one client_id1 client_id2 (audio_file_of client_id1));
      [by left|left; exact H].
  - intros H. apply (owned_by_one client_id1 client_id2 (tts_output_of client_id1));
      [by right|right; exact H].
  - intros H.
    assert (client_id1 = client_id2) as <-.
    { apply (owned_by_one client_id1 client_id2 (audio_file_of client_id1));
        [by left|right; exact H]. }
    by apply paths_differ in H.
Qed.

(** X13.  A run that gets to its end leaves neither of its two files in the
    directory, not even a file that an earlier, interrupted run of the same
    client had left there. *)
Theorem completed_run_leaves_no_temp_file b64decode b64encode client_id message raw b w :
  staged b64decode message = Some raw →
  can_send 3 (link w) →
  files (run (handle_message b64decode b64encode client_id message b) w).2
    !! audio_file_of client_id = None
  ∧ files (run (handle_message b64decode b64encode client_id message b) w).2
      !! tts_output_of client_id = None.
Proof.
  intros Hstaged Hlink.
  destruct message as [?|data]; [done|].
  destruct (staged_request _ _ _ Hstaged) as (s & Hreq & Hs & Hraw).
  destruct (served_run b64decode b64encode client_id data s raw b w Hreq Hs Hraw Hlink)
    as (l & E & _).
  rewrite E. cbn [snd files].
  split; [|apply lookup_delete_eq].
  rewrite lookup_delete_ne by (apply not_eq_sym, paths_differ).
  apply lookup_delete_eq.
Qed.

(** ** What flows from stage to stage *)

(** X14.  In a run that gets to its end, the text of the [transcription] envelope is
    the query put to the response engine, the text of the [response] envelope
    is the text handed to the synthesis engine, the transcription engine has
    read the decoded payload, and an [audio] envelope carries the base64 of
    the chunks of the synthesis engine in the order they came. *)
Theorem stages_hand_over_what_is_sent b64decode b64encode client_id message raw b w :
  staged b64decode message = Some raw →
  can_send 3 (link w) →
  ∃ l text answer closing,
    trace (run (handle_message b64decode b64encode client_id message b) w).2
    = trace w ++ l
    ∧ sent_of l = [transcription_envelope text; response_envelope answer; closing]
    ∧ calls_of l = [Whisper (audio_file_of client_id); Groq text;
                    Eleven answer (tts_output_of client_id)]
    ∧ text = match whisper b (Some raw) with
             | Heard segments => String.concat " " segments
             | WhisperRaised _ => ""
             end
    ∧ (∀ chunks, eleven b answer = Streamed chunks None →
                 closing = audio_envelope (b64encode (concat chunks))).
Proof.
  intros Hstaged Hlink.
  destruct message as [?|data]; [done|].
  destruct (staged_request _ _ _ Hstaged) as (s & Hreq & Hs & Hraw).
  destruct (served_run b64decode b64encode client_id data s raw b w Hreq Hs Hraw Hlink)
    as (l & E & Hsent & Hcalls & _).
  eexists l, _, _, _. rewrite E. split; [done|]. split; [exact Hsent|].
  split; [exact Hcalls|]. split; [done|].
  intros chunks Ho. by rewrite Ho.
Qed.

(** ** The client: what it does with what it receives *)

Lemma on_message_not_closed b64decode playback message w e w' :
  run (on_message b64decode playback message) w = (Raise e, w') → e ≠ ConnectionClosed.
Proof.
  unfold on_message. destruct message as [raw|data]; simpl; [by intros [= <- _]|].
  destruct data as [| | | | | |fields]; simpl; try by intros [= <- _].
  destruct (py_eq_str (default JNull (assoc "type" fields)) "audio").
  - simpl. destruct (assoc "audio_data" fields) as [v|]; simpl; [|by intros [= <- _]].
    unfold play_audio_from_base64. rewrite run_try, run_bind, run_lift.
    destruct (base64_b64decode b64decode v) as [clip|e1]; [|by simpl].
    unfold sd_play. destruct (playback clip); by simpl.
  - destruct (py_eq_str (default JNull (assoc "type" fields)) "transcription").
    + simpl. destruct (assoc "text" fields); simpl; by intros [= <- _].
    + destruct (py_eq_str (default JNull (assoc "type" fields)) "response"); [|by simpl].
      simpl. destruct (assoc "text" fields); simpl; by intros [= <- _].
Qed.

Lemma receive_loop_app b64decode playback before after w :
  run (receive_loop b64decode playback (before ++ after)) w
  = match run (receive_loop b64decode playback before) w with
    | (Ok _, w') => run (receive_loop b64decode playback after) w'
    | (Raise e, w') => (Raise e, w')
    end.
Proof.
  revert w. induction before as [|message before IH]; intros w; [done|].
  cbn [app receive_loop]. rewrite !run_bind.
  destruct (run (on_message b64decode playback message) w) as [[[]|e] w1]; [apply IH|done].
Qed.

Lemma receive_loop_not_closed b64decode playback inbox w e w' :
  run (receive_loop b64decode playback inbox) w = (Raise e, w') → e ≠ ConnectionClosed.
Proof.
  revert w. induction inbox as [|message rest IH]; intros w; [done|].
  cbn [receive_loop]. rewrite run_bind.
  destruct (run (on_message b64decode playback message) w) as [[[]|e1] w1] eqn:E1.
  - apply IH.
  - intros [= <- _]. by eapply on_message_not_closed.
Qed.

Lemma audio_played_run b64decode playback fields v w :
  assoc "type" fields = Some (JStr "audio") →
  assoc "audio_data" fields = Some v →
  run (on_message b64decode playback (Decoded (JObj fields))) w
  = (Ok (),
     World (files w) (link w)
       (trace w ++ [Logged INFO [Lit "Playing received TTS audio."];
                    match base64_b64decode b64decode v with
                    | Ok clip =>
                        match playback clip with
                        | None => Played clip
                        | Some e => Logged ERROR [Lit "Audio playback error: "; Exc e]
                        end
                    | Raise e => Logged ERROR [Lit "Audio playback error: "; Exc e]
                    end])).
Proof.
  intros Hty Had. unfold on_message. simpl. rewrite Hty. simpl. rewrite Had. simpl.
  unfold play_audio_from_base64. rewrite run_try, run_bind, run_lift.
  destruct (base64_b64decode b64decode v) as [clip|e]; simpl.
  - unfold sd_play. destruct (playback clip); simpl; by rewrite <- app_assoc.
  - by rewrite <- app_assoc.
Qed.

Lemma text_logged_run b64decode playback fields kind v w :
  assoc "type" fields = Some (JStr kind) →
  kind = "transcription" ∨ kind = "response" →
  assoc "text" fields = Some v →
  run (on_message b64decode playback (Decoded (JObj fields))) w
  = (Ok (),
     World (files w) (link w)
       (trace w ++ [Logged INFO [Lit (if String.eqb kind "transcription"
                                      then "Transcription: " else "AI Response: ");
                                 Val v]])).
Proof.
  intros Hty [-> | ->] Htext; unfold on_message; simpl; rewrite Hty; simpl;
    by rewrite Htext.
Qed.

(** X15.  An [audio] envelope never stops the receiver, whatever its payload: the
    clip is played when it decodes and plays, and in every other case (a
    payload that is not a string, not base64, or a failure of the decoder or
    the sound device) one line goes to the log. *)
Theorem audio_envelope_never_stops_the_receiver b64decode playback fields v w :
  assoc "type" fields = Some (JStr "audio") →
  assoc "audio_data" fields = Some v →
  run (on_message b64decode playback (Decoded (JObj fields))) w
  = (Ok (),
     World (files w) (link w)
       (trace w ++ [Logged INFO [Lit "Playing received TTS audio."];
                    match base64_b64decode b64decode v with
                    | Ok clip =>
                        match playback clip with
                        | None => Played clip
                        | Some e => Logged ERROR [Lit "Audio playback error: "; Exc e]
                        end
                    | Raise e => Logged ERROR [Lit "Audio playback error: "; Exc e]
                    end])).
Proof. apply audio_played_run. Qed.

(** X16.  A [transcription] or [response] envelope with a [text] puts one line in
    the log, with the text as it came, and does nothing else. *)
Theorem text_envelopes_are_logged b64decode playback fields kind v w :
  assoc "type" fields = Some (JStr kind) →
  kind = "transcription" ∨ kind = "response" →
  assoc "text" fields = Some v →
  run (on_message b64decode playback (Decoded (JObj fields))) w
  = (Ok (),
     World (files w) (link w)
       (trace w ++ [Logged INFO [Lit (if String.eqb kind "transcription"
                                      then "Transcription: " else "AI Response: ");
                                 Val v]])).
Proof. apply text_logged_run. Qed.

(** X17.  An object whose [type] is none of [audio], [transcription] and [response]
    (another string, a value that is not a string, or no [type] at all) leaves
    the client as it is. *)
Theorem client_ignores_other_kinds b64decode playback fields w :
  assoc "type" fields ≠ Some (JStr "audio") →
  assoc "type" fields ≠ Some (JStr "transcription") →
  assoc "type" fields ≠ Some (JStr "response") →
  run (on_message b64decode playback (Decoded (JObj fields))) w = (Ok (), w).
Proof.
  intros Ha Ht Hr. unfold on_message. simpl.
  assert (∀ s, assoc "type" fields ≠ Some (JStr s) →
               py_eq_str (default JNull (assoc "type" fields)) s = false) as Hne.
  { intros s Hs. destruct (assoc "type" fields) as [[| | | |t| |]|]; try done.
    simpl. apply String.eqb_neq. by intros ->. }
  by rewrite !Hne.
Qed.

(** X18.  [receive_messages] has no handler around a single message: the first
    message whose handling raises ends the receiver with that exception, and
    the messages behind it are never looked at. *)
Theorem receiver_stops_at_first_failure b64decode playback before message rest ending
    w w1 e w2 :
  run (receive_loop b64decode playback before) w = (Ok (), w1) →
  run (on_message b64decode playback message) w1 = (Raise e, w2) →
  run (receive_messages b64decode playback (before ++ message :: rest) ending) w
  = (Raise e, w2).
Proof.
  intros Hbefore Hfail.
  pose proof (on_message_not_closed _ _ _ _ _ _ Hfail) as Hne.
  unfold receive_messages. rewrite run_try, run_bind, receive_loop_app, Hbefore.
  cbn [receive_loop]. rewrite run_bind, Hfail. by destruct e.
Qed.


(** X20.  [receive_messages] returns normally exactly when every message was
    handled; a stream that ends abnormally adds one line to the log, and an
    exception of a message is never taken for the end of the stream. *)
Theorem receiver_outcome b64decode playback inbox ending w :
  run (receive_messages b64decode playback inbox ending) w
  = match run (receive_loop b64decode playback inbox) w with
    | (Ok _, w') =>
        (Ok (),
         match ending with
         | CloseOK => w'
         | CloseError =>
             World (files w') (link w')
               (trace w' ++ [Logged INFO [Lit "Connection closed by server."]])
         end)
    | (Raise e, w') => (Raise e, w')
    end.
Proof.
  unfold receive_messages. rewrite run_try, run_bind.
  destruct (run (receive_loop b64decode playback inbox) w) as [[[]|e] w'] eqn:E.
  - by destruct ending.
  - apply receive_loop_not_closed in E. by destruct e.
Qed.

(** ** The client: sending a recording *)

(** X21.  [send_audio] sends one [audio] envelope with the base64 of the whole
    file, and leaves the file where it is. *)
Theorem send_audio_sends_the_file b64encode filename raw w :
  files w !! filename = Some raw →
  can_send 1 (link w) →
  run (send_audio b64encode filename) w
  = (Ok (), World (files w) (spend 1 (link w))
              (trace w ++ [Sent (audio_envelope (b64encode raw))])).
Proof.
  intros Hfile Hlink. unfold send_audio.
  rewrite run_try, run_bind, run_call. cbn [perform]. rewrite Hfile.
  destruct w as [F L T]. cbn [files link trace] in *.
  by destruct (send_run (JObj [("type", JStr "audio");
                               ("audio_data", JStr (b64encode raw))]) F L T 0 Hlink)
    as [-> _].
Qed.

(** X22.  [send_audio] never raises and never touches a file: a recording that is
    not there, or a connection that is gone, costs one line in the log, and
    nothing is sent. *)
Theorem send_audio_never_raises b64encode filename w :
  ∃ L' l, run (send_audio b64encode filename) w
          = (Ok (), World (files w) L' (trace w ++ l))
        ∧ (files w !! filename = None →
           L' = link w
           ∧ l = [Logged ERROR [Lit "Error sending audio: "; Exc FileNotFoundError]])
        ∧ (is_Some (files w !! filename) → ¬ can_send 1 (link w) →
           L' = Down
           ∧ l = [Logged ERROR [Lit "Error sending audio: "; Exc ConnectionClosed]]).
Proof.
  unfold send_audio. rewrite run_try, run_bind, run_call. cbn [perform].
  destruct (files w !! filename) as [raw|] eqn:Hfile.
  - destruct w as [F L T]. cbn [files link trace] in *.
    destruct (decide (can_send 1 L)) as [Hlink|Hlink].
    + destruct (send_run (JObj [("type", JStr "audio");
                                ("audio_data", JStr (b64encode raw))]) F L T 0 Hlink)
        as [-> _].
      eexists _, _. split; [done|]. split; [done|]. by intros _ ?.
    + rewrite (send_refused _ F L T Hlink). simpl.
      eexists _, _. split; [done|]. split; [done|]. by intros _ _.
  - simpl. eexists _, _. split; [done|]. split; [done|]. by intros [? ?].
Qed.

(** ** Client and server together *)

(** X23.  What the client sends for a recording is what the server stages and
    transcribes: when base64 gives the recording back and the recording is
    not empty, the envelope of [send_audio], handled by the server, is
    answered from the bytes of the recording. *)
Theorem recording_reaches_the_transcriber b64decode b64encode filename raw wc :
  files wc !! filename = Some raw →
  can_send 1 (link wc) →
  b64decode (b64encode raw) = Some raw →
  b64encode raw ≠ "" →
  ∃ envelope,
    run (send_audio b64encode filename) wc
    = (Ok (), World (files wc) (spend 1 (link wc)) (trace wc ++ [Sent envelope]))
    ∧ ∀ client_id b ws, can_send 3 (link ws) →
        ∃ l, trace (run (handle_message b64decode b64encode client_id
                           (Decoded envelope) b) ws).2
             = trace ws ++ l
           ∧ calls_of l
             = [Whisper (audio_file_of client_id);
                Groq (transcript b (Some raw));
                Eleven (reply b (transcript b (Some raw))) (tts_output_of client_id)]
           ∧ sent_of l
             = [transcription_envelope (transcript b (Some raw));
                response_envelope (reply b (transcript b (Some raw)));
                closing_envelope b64encode
                  (eleven b (reply b (transcript b (Some raw))))].
Proof.
  intros Hfile Hlink Hcodec Hne.
  exists (audio_envelope (b64encode raw)). split.
  - unfold send_audio.
    rewrite run_try, run_bind, run_call. cbn [perform]. rewrite Hfile.
    destruct wc as [F L T]. cbn [files link trace] in *.
    by destruct (send_run (JObj [("type", JStr "audio");
                                 ("audio_data", JStr (b64encode raw))]) F L T 0 Hlink)
      as [-> _].
  - intros client_id b ws Hws.
    destruct (served_run b64decode b64encode client_id (audio_envelope (b64encode raw))
                (b64encode raw) raw b ws) as (l & E & Hsent & Hcalls & _);
      [by split|done|done|done|].
    exists l. by rewrite E.
Qed.

(** X24.  A receiver that is handed the envelopes of a complete run, in the order
    the server sent them, logs the transcription and the reply and then plays
    the chunks of the synthesis engine, when base64 gives them back and the
    sound device plays them. *)
Theorem client_plays_what_was_synthesized b64decode b64encode playback client_id message
    raw b chunks ws wc :
  staged b64decode message = Some raw →
  can_send 3 (link ws) →
  eleven b (reply b (transcript b (Some raw))) = Streamed chunks None →
  b64decode (b64encode (concat chunks)) = Some (concat chunks) →
  playback (concat chunks) = None →
  ∃ l, trace (run (handle_message b64decode b64encode client_id message b) ws).2
       = trace ws ++ l
     ∧ run (receive_messages b64decode playback (Decoded <$> sent_of l) CloseOK) wc
       = (Ok (),
          World (files wc) (link wc)
            (trace wc ++ [Logged INFO [Lit "Transcription: ";
                                       Val (JStr (transcript b (Some raw)))];
                          Logged INFO [Lit "AI Response: ";
                                       Val (reply b (transcript b (Some raw)))];
                          Logged INFO [Lit "Playing received TTS audio."];
                          Played (concat chunks)])).
Proof.
  intros Hstaged Hlink Ho Hcodec Hplay.
  destruct message as [?|data]; [done|].
  destruct (staged_request _ _ _ Hstaged) as (s & Hreq & Hs & Hraw).
  destruct (served_run b64decode b64encode client_id data s raw b ws Hreq Hs Hraw Hlink)
    as (l & E & Hsent & _).
  exists l. rewrite E. split; [done|]. rewrite Hsent, Ho.
  unfold receive_messages. rewrite run_try, run_bind.
  cbn [fmap list_fmap receive_loop closing_envelope].
  unfold transcription_envelope, response_envelope, audio_envelope. rewrite run_bind.
  rewrite (text_logged_run b64decode playback _ "transcription" (JStr (transcript b (Some raw))))
    by (done || by left).
  cbv beta iota. rewrite run_bind.
  rewrite (text_logged_run b64decode playback _ "response" (reply b (transcript b (Some raw))))
    by (done || by right).
  cbv beta iota. rewrite run_bind.
  rewrite (audio_played_run b64decode playback _ (JStr (b64encode (concat chunks)))) by done.
  cbn [base64_b64decode]. rewrite Hcodec, Hplay. cbn [files link trace].
  simpl. by rewrite <- !app_assoc.
Qed.

(** X25.  When the synthesis fails, the receiver that is handed the envelopes of the
    run logs the transcription and the reply and nothing more: the [error]
    envelope leaves no trace on the client. *)
Theorem failed_synthesis_is_silent_on_the_client b64decode b64encode playback client_id
    message raw b ws wc :
  staged b64decode message = Some raw →
  can_send 3 (link ws) →
  synthesis_failed (eleven b (reply b (transcript b (Some raw)))) →
  ∃ l, trace (run (handle_message b64decode b64encode client_id message b) ws).2
       = trace ws ++ l
     ∧ run (receive_messages b64decode playback (Decoded <$> sent_of l) CloseOK) wc
       = (Ok (),
          World (files wc) (link wc)
            (trace wc ++ [Logged INFO [Lit "Transcription: ";
                                       Val (JStr (transcript b (Some raw)))];
                          Logged INFO [Lit "AI Response: ";
                                       Val (reply b (transcript b (Some raw)))]])).
Proof.
  intros Hstaged Hlink Hfail.
  destruct message as [?|data]; [done|].
  destruct (staged_request _ _ _ Hstaged) as (s & Hreq & Hs & Hraw).
  destruct (served_run b64decode b64encode client_id data s raw b ws Hreq Hs Hraw Hlink)
    as (l & E & Hsent & _).
  exists l. rewrite E. split; [done|]. rewrite Hsent.
  assert (closing_envelope b64encode (eleven b (reply b (transcript b (Some raw))))
          = error_envelope "TTS synthesis failed.") as ->.
  { unfold synthesis_failed in Hfail.
    by destruct (eleven b (reply b (transcript b (Some raw)))) as [e|chunks [e|]]. }
  unfold receive_messages. rewrite run_try, run_bind.
  cbn [fmap list_fmap receive_loop].
  unfold transcription_envelope, response_envelope, error_envelope. rewrite run_bind.
  rewrite (text_logged_run b64decode playback _ "transcription" (JStr (transcript b (Some raw))))
    by (done || by left).
  cbv beta iota. rewrite run_bind.
  rewrite (text_logged_run b64decode playback _ "response" (reply b (transcript b (Some raw))))
    by (done || by right).
  simpl. by rewrite <- !app_assoc.
Qed.

(** ** The temporary directory under concurrent sessions *)

Lemma pool_run_frame (P : string → Prop) schedule F pool q :
  (∀ i s, pool !! i = Some s → within P (todo s)) →
  ¬ P q →
  (pool_run schedule (F, pool)).1 !! q = F !! q.
Proof.
  intros Hwithin Hq. revert F pool Hwithin.
  induction schedule as [|i schedule IH]; intros F pool Hwithin; [done|].
  unfold pool_run in *. cbn [foldl]. unfold pool_step at 2. cbn [fst snd].
  destruct (pool !! i) as [si|] eqn:Hi; [|by apply IH].
  pose proof (advance_within P F si (Hwithin i si Hi)) as Hw.
  pose proof (advance_frame P F si q (Hwithin i si Hi) Hq) as Hf.
  destruct (advance F si) as [F1 s1]. simpl in Hw, Hf.
  rewrite IH; [done|].
  intros i' s Hi'. destruct (decide (i' = i)) as [->|Hne].
  - rewrite list_lookup_insert_eq in Hi' by (by apply lookup_lt_is_Some).
    by inversion Hi'; subst.
  - rewrite list_lookup_insert_ne in Hi' by done. by eapply Hwithin.
Qed.

Lemma pool_run_solo_files (own : nat → string → Prop) schedule :
  (∀ i j path, i ≠ j → own i path → own j path → False) →
  ∀ F pool j sj Fj,
    (∀ i s, pool !! i = Some s → within (own i) (todo s)) →
    pool !! j = Some sj →
    agree_on (own j) F Fj →
    agree_on (own j) (pool_run schedule (F, pool)).1 (solo (turns j schedule) Fj sj).1.
Proof.
  intros Hdisj. induction schedule as [|i schedule IH];
    intros F pool j sj Fj Hwithin Hj Hagree; [done|].
  unfold pool_run in *. cbn [foldl]. rewrite turns_cons.
  unfold pool_step at 2. cbn [fst snd].
  destruct (decide (i = j)) as [->|Hij].
  - rewrite Hj. cbn [solo].
    destruct (advance_local (own j) F Fj sj (Hwithin j sj Hj) Hagree) as [Hs Hf].
    pose proof (advance_within (own j) F sj (Hwithin j sj Hj)) as Hw.
    destruct (advance F sj) as [F1 s1], (advance Fj sj) as [Fj1 sj1].
    simpl in Hs, Hf, Hw. subst sj1.
    apply IH; [|by apply list_lookup_insert_eq, lookup_lt_is_Some|done].
    intros i s Hi. destruct (decide (i = j)) as [->|Hne].
    + rewrite list_lookup_insert_eq in Hi by (by apply lookup_lt_is_Some).
      by inversion Hi; subst.
    + rewrite list_lookup_insert_ne in Hi by done. by apply Hwithin.
  - destruct (pool !! i) as [si|] eqn:Hi; [|by apply IH].
    pose proof (advance_within (own i) F si (Hwithin i si Hi)) as Hw.
    assert (agree_on (own j) (advance F si).1 Fj) as Hagree'.
    { intros q Hq. rewrite <- (Hagree q Hq).
      apply (advance_frame (own i)); [by apply Hwithin|].
      intros Hq'. by apply (Hdisj i j q). }
    destruct (advance F si) as [F1 s1]. simpl in Hw, Hagree'.
    apply IH; [|by rewrite list_lookup_insert_ne|done].
    intros i' s Hi'. destruct (decide (i' = i)) as [->|Hne].
    + rewrite list_lookup_insert_eq in Hi' by (by apply lookup_lt_is_Some).
      by inversion Hi'; subst.
    + rewrite list_lookup_insert_ne in Hi' by done. by apply Hwithin.
Qed.

(** X26.  Whatever the scheduler does and whatever the sessions receive, a file
    that is not one of the two temporary files of a connected client is never
    created, changed or removed. *)
Theorem pool_leaves_foreign_files b64decode b64encode conns schedule F q :
  (∀ c, c ∈ conns → ¬ owned_by (conn_id c) q) →
  (pool_run schedule (F, serve b64decode b64encode <$> conns)).1 !! q = F !! q.
Proof.
  intros Hforeign.
  apply (pool_run_frame (λ path, ∃ c, c ∈ conns ∧ owned_by (conn_id c) path)).
  - intros i s Hi. rewrite list_lookup_fmap in Hi.
    destruct (conns !! i) as [ci|] eqn:Hci; [|done].
    injection Hi as <-. unfold serve. cbn [todo].
    apply (within_mono (owned_by (conn_id ci))); [|apply handle_client_within].
    intros path Hp. exists ci. split; [|done]. by eapply list_elem_of_lookup_2.
  - intros (c & Hc & Hq). by apply (Hforeign c).
Qed.

(** X27.  In a pool of sessions with distinct identifiers, once a session has had
    the turns it needs, its two temporary files are what they are after the
    session has run alone, whatever the other sessions do before or after. *)
Theorem session_files_are_as_alone b64decode b64encode (conns : list connection)
    (j : nat) (c : connection) (F : gmap string bytes) :
  NoDup (conn_id <$> conns) →
  conns !! j = Some c →
  let alone := run (todo (serve b64decode b64encode c)) (World F (conn_link c) []) in
  ∃ n, ∀ schedule, (n ≤ turns j schedule)%nat →
    ∀ q, owned_by (conn_id c) q →
      (pool_run schedule (F, serve b64decode b64encode <$> conns)).1 !! q
      = files alone.2 !! q.
Proof.
  intros Hids Hj alone.
  destruct (solo_run (todo (serve b64decode b64encode c)) F (conn_link c) []) as [n Hn].
  exists n. intros schedule Hturns q Hq.
  set (own := λ (i : nat) (path : string),
         ∃ ci, conns !! i = Some ci ∧ owned_by (conn_id ci) path).
  pose proof (pool_run_solo_files own schedule) as Hfiles.
  rewrite (Hfiles) with (j := j) (sj := serve b64decode b64encode c) (Fj := F).
  - pose proof (Hn _ Hturns) as Hsolo.
    change (Session (conn_link c) [] (todo (serve b64decode b64encode c)))
      with (serve b64decode b64encode c) in Hsolo.
    by rewrite Hsolo.
  - intros i1 i2 path Hne (c1 & H1 & Ho1) (c2 & H2 & Ho2).
    apply Hne. eapply NoDup_lookup; [exact Hids|..].
    + by rewrite list_lookup_fmap, H1.
    + rewrite list_lookup_fmap, H2. simpl. f_equal. symmetry.
      by eapply owned_by_one.
  - intros i s Hi. rewrite list_lookup_fmap in Hi.
    destruct (conns !! i) as [ci|] eqn:Hci; [|done].
    injection Hi as <-. unfold serve. cbn [todo].
    assert (∀ path, owned_by (conn_id ci) path → own i path) as Hsub
      by (intros path Hp; by exists ci).
    apply (within_mono (owned_by (conn_id ci))); [done|].
    apply handle_client_within.
  - by rewrite list_lookup_fmap, Hj.
  - done.
  - by exists c.
Qed.

(** ** The further properties at sample inputs *)

(** A completion that says [Hi]. *)
Lemma generate_response_returns_first_choice_witness :
  groq Sample.healthy "hello" = Sample.completion "Hi"
  ∧ ∃ l, run (generate_response Sample.healthy "hello") blank
         = (Ok (JStr "Hi"), World (files blank) (link blank) (trace blank ++ l))
       ∧ outward l = [Invoked (Groq "hello")].
Proof.
  split; [reflexivity|].
  eapply (generate_response_returns_first_choice Sample.healthy "hello" blank);
    reflexivity.
Defined.

(** A reply with status 200 and no choice. *)
Lemma generate_response_hides_malformed_reply_witness :
  groq Sample.vague "hello" = Sample.groq_empty
  ∧ first_choice_content (JObj [("choices", JArr [])]) = Raise IndexError
  ∧ ∃ l, run (generate_response Sample.vague "hello") blank
         = (Ok (JStr "Network error occurred."),
            World (files blank) (link blank) (trace blank ++ l))
       ∧ outward l = [Invoked (Groq "hello")].
Proof.
  split; [reflexivity|]. split; [reflexivity|].
  apply (generate_response_hides_malformed_reply Sample.vague "hello" blank
           (HttpResponse 200 (Ok "{...}") (Ok (JObj [("choices", JArr [])])))
           IndexError).
  - reflexivity.
  - reflexivity.
  - right. exists (JObj [("choices", JArr [])]). split; reflexivity.
Defined.

(** A stream of one chunk that completes. *)
Lemma synthesize_writes_the_stream_witness :
  eleven Sample.healthy (JStr "Hi") = Streamed [Sample.id3] None
  ∧ ∃ l, run (synthesize Sample.healthy (JStr "Hi") Sample.mp37) blank
         = (Ok true,
            World (<[Sample.mp37 := concat [Sample.id3]]> (files blank)) (link blank)
                  (trace blank ++ l))
       ∧ outward l = [Invoked (Eleven (JStr "Hi") Sample.mp37); Created Sample.mp37].
Proof.
  split; [reflexivity|].
  apply (synthesize_writes_the_stream Sample.healthy (JStr "Hi") Sample.mp37 blank
           [Sample.id3]).
  reflexivity.
Defined.

(** A synthesis engine that raises at the call. *)
Lemma synthesize_failure_is_contained_witness :
  synthesis_failed (eleven Sample.mute (JStr "Hi"))
  ∧ ∃ l, run (synthesize Sample.mute (JStr "Hi") Sample.mp37) blank
         = (Ok false,
            World match eleven Sample.mute (JStr "Hi") with
                  | ConvertRaised _ => files blank
                  | Streamed chunks _ => <[Sample.mp37 := concat chunks]> (files blank)
                  end (link blank) (trace blank ++ l))
       ∧ sent_of l = [].
Proof.
  split; [reflexivity|].
  apply (synthesize_failure_is_contained Sample.mute (JStr "Hi") Sample.mp37 blank).
  reflexivity.
Defined.

(** Client 7 after its peer has gone away, with a clip and then a message
    that is not JSON still to come. *)
Lemma dead_link_does_not_stop_the_loop_witness :
  staged Sample.b64decode (Decoded (Sample.audio_message "UklGRg==")) = Some Sample.riff
  ∧ ¬ can_send 1 (link (World ∅ Down []))
  ∧ ∃ F' l, run (message_loop Sample.b64decode Sample.b64encode 7
                   [(Decoded (Sample.audio_message "UklGRg=="), Sample.healthy);
                    (Garbled "{", Sample.healthy)])
              (World ∅ Down [])
            = run (message_loop Sample.b64decode Sample.b64encode 7
                     [(Garbled "{", Sample.healthy)])
                (World F' Down (trace (World ∅ Down []) ++ l))
          ∧ F' !! audio_file_of 7 = Some Sample.riff
          ∧ sent_of l = []
          ∧ calls_of l = [Whisper (audio_file_of 7)].
Proof.
  split; [reflexivity|]. split; [by intros []|].
  apply (dead_link_does_not_stop_the_loop Sample.b64decode Sample.b64encode 7
           (Decoded (Sample.audio_message "UklGRg==")) Sample.healthy
           [(Garbled "{", Sample.healthy)] (World ∅ Down []) Sample.riff).
  - reflexivity.
  - by intros [].
Defined.

(** An [audio] message whose payload is not base64. *)
Lemma undecodable_payload_leaves_empty_file_witness :
  truthy (JStr "a") = true
  ∧ base64_b64decode Sample.b64decode (JStr "a") = Raise ValueError
  ∧ run (handle_message Sample.b64decode Sample.b64encode 7
           (Decoded (JObj [("type", JStr "audio"); ("audio_data", JStr "a")]))
           Sample.healthy) blank
    = (Ok (), World (<[audio_file_of 7 := []]> (files blank)) (link blank)
                (trace blank ++ [Created (audio_file_of 7);
                                 Logged ERROR [Lit "Error processing message: ";
                                               Exc ValueError]])).
Proof.
  split; [reflexivity|]. split; [reflexivity|].
  apply (undecodable_payload_leaves_empty_file Sample.b64decode Sample.b64encode 7
           [("type", JStr "audio"); ("audio_data", JStr "a")] (JStr "a") ValueError
           Sample.healthy blank); reflexivity.
Defined.

(** A message of a kind the server does not know, with a payload. *)
Lemma other_kinds_are_ignored_witness :
  assoc "type" [("type", JStr "ping"); ("audio_data", JStr "UklGRg==")]
  ≠ Some (JStr "audio")
  ∧ run (handle_message Sample.b64decode Sample.b64encode 7
           (Decoded (JObj [("type", JStr "ping"); ("audio_data", JStr "UklGRg==")]))
           Sample.healthy) blank
    = (Ok (), blank).
Proof.
  assert (assoc "type" [("type", JStr "ping"); ("audio_data", JStr "UklGRg==")]
          ≠ Some (JStr "audio")) as Hty by (intros H; vm_compute in H; discriminate H).
  split; [exact Hty|].
  apply (other_kinds_are_ignored Sample.b64decode Sample.b64encode 7
           [("type", JStr "ping"); ("audio_data", JStr "UklGRg==")] Sample.healthy blank).
  exact Hty.
Defined.

(** The session of the first sample client and a file of the second. *)
Lemma session_touches_own_files_only_witness :
  "temp_audio/client_8.wav" ≠ audio_file_of 7
  ∧ "temp_audio/client_8.wav" ≠ tts_output_of 7
  ∧ files (run (handle_client Sample.b64decode Sample.b64encode 7 "/"
                  (conn_inbox Sample.first_client) CloseError)
             (World {["temp_audio/client_8.wav" := Sample.riff]} (Up None) [])).2
      !! "temp_audio/client_8.wav"
    = files (World {["temp_audio/client_8.wav" := Sample.riff]} (Up None) [])
        !! "temp_audio/client_8.wav".
Proof.
  assert ("temp_audio/client_8.wav" ≠ audio_file_of 7) as Hwav
    by (intros H; vm_compute in H; discriminate H).
  assert ("temp_audio/client_8.wav" ≠ tts_output_of 7) as Htts
    by (intros H; vm_compute in H; discriminate H).
  split; [exact Hwav|]. split; [exact Htts|].
  apply (session_touches_own_files_only Sample.b64decode Sample.b64encode 7 "/"
           (conn_inbox Sample.first_client) CloseError
           (World {["temp_audio/client_8.wav" := Sample.riff]} (Up None) [])
           "temp_audio/client_8.wav" Hwav Htts).
Defined.

(** A complete run in a directory where an earlier run has left its clip. *)
Lemma completed_run_leaves_no_temp_file_witness :
  staged Sample.b64decode (Decoded (Sample.audio_message "UklGRg==")) = Some Sample.riff
  ∧ can_send 3 (link Sample.littered)
  ∧ files Sample.littered !! tts_output_of 7 = Some Sample.id3
  ∧ files (run (handle_message Sample.b64decode Sample.b64encode 7
                  (Decoded (Sample.audio_message "UklGRg==")) Sample.healthy)
             Sample.littered).2 !! audio_file_of 7 = None
  ∧ files (run (handle_message Sample.b64decode Sample.b64encode 7
                  (Decoded (Sample.audio_message "UklGRg==")) Sample.healthy)
             Sample.littered).2 !! tts_output_of 7 = None.
Proof.
  split; [reflexivity|]. split; [exact I|]. split; [by vm_compute|].
  apply (completed_run_leaves_no_temp_file Sample.b64decode Sample.b64encode 7
           (Decoded (Sample.audio_message "UklGRg==")) Sample.riff Sample.healthy
           Sample.littered).
  - reflexivity.
  - exact I.
Defined.

(** A complete run of client 7 with three working engines. *)
Lemma stages_hand_over_what_is_sent_witness :
  staged Sample.b64decode (Decoded (Sample.audio_message "UklGRg==")) = Some Sample.riff
  ∧ can_send 3 (link blank)
  ∧ ∃ l text answer closing,
      trace (run (handle_message Sample.b64decode Sample.b64encode 7
                    (Decoded (Sample.audio_message "UklGRg==")) Sample.healthy)
               blank).2
      = trace blank ++ l
      ∧ sent_of l = [transcription_envelope text; response_envelope answer; closing]
      ∧ calls_of l = [Whisper (audio_file_of 7); Groq text;
                      Eleven answer (tts_output_of 7)]
      ∧ text = match whisper Sample.healthy (Some Sample.riff) with
               | Heard segments => String.concat " " segments
               | WhisperRaised _ => ""
               end
      ∧ (∀ chunks, eleven Sample.healthy answer = Streamed chunks None →
                   closing = audio_envelope (Sample.b64encode (concat chunks))).
Proof.
  split; [reflexivity|]. split; [exact I|].
  apply (stages_hand_over_what_is_sent Sample.b64decode Sample.b64encode 7
           (Decoded (Sample.audio_message "UklGRg==")) Sample.riff Sample.healthy blank).
  - reflexivity.
  - exact I.
Defined.

(** An [audio] envelope whose payload is a number. *)
Lemma audio_envelope_never_stops_the_receiver_witness :
  assoc "type" [("type", JStr "audio"); ("audio_data", JInt 5)] = Some (JStr "audio")
  ∧ assoc "audio_data" [("type", JStr "audio"); ("audio_data", JInt 5)] = Some (JInt 5)
  ∧ run (on_message Sample.b64decode Sample.playback
           (Decoded (JObj [("type", JStr "audio"); ("audio_data", JInt 5)]))) blank
    = (Ok (),
       World (files blank) (link blank)
         (trace blank
          ++ [Logged INFO [Lit "Playing received TTS audio."];
              match base64_b64decode Sample.b64decode (JInt 5) with
              | Ok clip =>
                  match Sample.playback clip with
                  | None => Played clip
                  | Some e => Logged ERROR [Lit "Audio playback error: "; Exc e]
                  end
              | Raise e => Logged ERROR [Lit "Audio playback error: "; Exc e]
              end])).
Proof.
  split; [reflexivity|]. split; [reflexivity|].
  apply (audio_envelope_never_stops_the_receiver Sample.b64decode Sample.playback
           [("type", JStr "audio"); ("audio_data", JInt 5)] (JInt 5) blank); reflexivity.
Defined.

(** The [response] envelope of the server, as the client receives it. *)
Lemma text_envelopes_are_logged_witness :
  assoc "type" [("type", JStr "response"); ("text", JStr "Hi")] = Some (JStr "response")
  ∧ assoc "text" [("type", JStr "response"); ("text", JStr "Hi")] = Some (JStr "Hi")
  ∧ run (on_message Sample.b64decode Sample.playback
           (Decoded (JObj [("type", JStr "response"); ("text", JStr "Hi")]))) blank
    = (Ok (),
       World (files blank) (link blank)
         (trace blank ++ [Logged INFO [Lit (if String.eqb "response" "transcription"
                                            then "Transcription: " else "AI Response: ");
                                       Val (JStr "Hi")]])).
Proof.
  split; [reflexivity|]. split; [reflexivity|].
  apply (text_envelopes_are_logged Sample.b64decode Sample.playback
           [("type", JStr "response"); ("text", JStr "Hi")] "response" (JStr "Hi") blank).
  - reflexivity.
  - right. reflexivity.
  - reflexivity.
Defined.

(** An object without a [type]. *)
Lemma client_ignores_other_kinds_witness :
  assoc "type" [("kind", JStr "audio")] = None
  ∧ run (on_message Sample.b64decode Sample.playback
           (Decoded (JObj [("kind", JStr "audio")]))) blank
    = (Ok (), blank).
Proof.
  split; [reflexivity|].
  apply (client_ignores_other_kinds Sample.b64decode Sample.playback
           [("kind", JStr "audio")] blank);
    intros H; vm_compute in H; discriminate H.
Defined.

(** A [transcription] envelope without a [text], between two envelopes that
    are in order. *)
Lemma receiver_stops_at_first_failure_witness :
  run (receive_loop Sample.b64decode Sample.playback
         [Decoded (JObj Sample.error_fields)]) blank = (Ok (), blank)
  ∧ run (on_message Sample.b64decode Sample.playback
           (Decoded (JObj [("type", JStr "transcription")]))) blank
    = (Raise (KeyError "text"), blank)
  ∧ run (receive_messages Sample.b64decode Sample.playback
           ([Decoded (JObj Sample.error_fields)]
            ++ Decoded (JObj [("type", JStr "transcription")])
               :: [Decoded (JObj [("type", JStr "response"); ("text", JStr "Hi")])])
           CloseOK) blank
    = (Raise (KeyError "text"), blank).
Proof.
  split; [reflexivity|]. split; [reflexivity|].
  apply (receiver_stops_at_first_failure Sample.b64decode Sample.playback
           [Decoded (JObj Sample.error_fields)]
           (Decoded (JObj [("type", JStr "transcription")]))
           [Decoded (JObj [("type", JStr "response"); ("text", JStr "Hi")])]
           CloseOK blank blank (KeyError "text") blank); reflexivity.
Defined.


(** The recording of the client, sent on an open connection. *)
Lemma send_audio_sends_the_file_witness :
  files Sample.recorded !! "client_recording.wav" = Some Sample.riff
  ∧ can_send 1 (link Sample.recorded)
  ∧ run (send_audio Sample.encode "client_recording.wav") Sample.recorded
    = (Ok (), World (files Sample.recorded) (spend 1 (link Sample.recorded))
                (trace Sample.recorded
                 ++ [Sent (audio_envelope (Sample.encode Sample.riff))])).
Proof.
  split; [by vm_compute|]. split; [exact I|].
  apply (send_audio_sends_the_file Sample.encode "client_recording.wav" Sample.riff
           Sample.recorded).
  - by vm_compute.
  - exact I.
Defined.

(** The recording of the client, sent and then handled by the server. *)
Lemma recording_reaches_the_transcriber_witness :
  files Sample.recorded !! "client_recording.wav" = Some Sample.riff
  ∧ can_send 1 (link Sample.recorded)
  ∧ Sample.decode (Sample.encode Sample.riff) = Some Sample.riff
  ∧ Sample.encode Sample.riff ≠ ""
  ∧ ∃ envelope,
      run (send_audio Sample.encode "client_recording.wav") Sample.recorded
      = (Ok (), World (files Sample.recorded) (spend 1 (link Sample.recorded))
                  (trace Sample.recorded ++ [Sent envelope]))
      ∧ ∀ client_id b ws, can_send 3 (link ws) →
          ∃ l, trace (run (handle_message Sample.decode Sample.encode client_id
                             (Decoded envelope) b) ws).2
               = trace ws ++ l
             ∧ calls_of l
               = [Whisper (audio_file_of client_id);
                  Groq (transcript b (Some Sample.riff));
                  Eleven (reply b (transcript b (Some Sample.riff)))
                    (tts_output_of client_id)]
             ∧ sent_of l
               = [transcription_envelope (transcript b (Some Sample.riff));
                  response_envelope (reply b (transcript b (Some Sample.riff)));
                  closing_envelope Sample.encode
                    (eleven b (reply b (transcript b (Some Sample.riff))))].
Proof.
  assert (Sample.encode Sample.riff ≠ "") as Hne
    by (intros H; vm_compute in H; discriminate H).
  split; [by vm_compute|]. split; [exact I|]. split; [by vm_compute|].
  split; [exact Hne|].
  apply (recording_reaches_the_transcriber Sample.decode Sample.encode
           "client_recording.wav" Sample.riff Sample.recorded).
  - by vm_compute.
  - exact I.
  - by vm_compute.
  - exact Hne.
Defined.

(** A complete run of client 7, and a client with a sound device that
    receives its envelopes. *)
Lemma client_plays_what_was_synthesized_witness :
  staged Sample.decode (Decoded (Sample.audio_message "UklGRg==")) = Some Sample.riff
  ∧ can_send 3 (link blank)
  ∧ eleven Sample.healthy
      (reply Sample.healthy (transcript Sample.healthy (Some Sample.riff)))
    = Streamed [Sample.id3] None
  ∧ Sample.decode (Sample.encode (concat [Sample.id3])) = Some (concat [Sample.id3])
  ∧ Sample.speaker (concat [Sample.id3]) = None
  ∧ ∃ l, trace (run (handle_message Sample.decode Sample.encode 7
                       (Decoded (Sample.audio_message "UklGRg==")) Sample.healthy)
                  blank).2
         = trace blank ++ l
       ∧ run (receive_messages Sample.decode Sample.speaker (Decoded <$> sent_of l)
                CloseOK) blank
         = (Ok (),
            World (files blank) (link blank)
              (trace blank
               ++ [Logged INFO [Lit "Transcription: ";
                                Val (JStr (transcript Sample.healthy
                                             (Some Sample.riff)))];
                   Logged INFO [Lit "AI Response: ";
                                Val (reply Sample.healthy
                                       (transcript Sample.healthy (Some Sample.riff)))];
                   Logged INFO [Lit "Playing received TTS audio."];
                   Played (concat [Sample.id3])])).
Proof.
  split; [reflexivity|]. split; [exact I|]. split; [reflexivity|].
  split; [by vm_compute|]. split; [reflexivity|].
  apply (client_plays_what_was_synthesized Sample.decode Sample.encode Sample.speaker 7
           (Decoded (Sample.audio_message "UklGRg==")) Sample.riff Sample.healthy
           [Sample.id3] blank blank).
  - reflexivity.
  - exact I.
  - reflexivity.
  - by vm_compute.
  - reflexivity.
Defined.

(** A run of client 7 whose synthesis engine raises, and the client that
    receives its envelopes. *)
Lemma failed_synthesis_is_silent_on_the_client_witness :
  staged Sample.b64decode (Decoded (Sample.audio_message "UklGRg==")) = Some Sample.riff
  ∧ can_send 3 (link blank)
  ∧ synthesis_failed
      (eleven Sample.mute (reply Sample.mute (transcript Sample.mute (Some Sample.riff))))
  ∧ ∃ l, trace (run (handle_message Sample.b64decode Sample.b64encode 7
                       (Decoded (Sample.audio_message "UklGRg==")) Sample.mute)
                  blank).2
         = trace blank ++ l
       ∧ run (receive_messages Sample.b64decode Sample.playback (Decoded <$> sent_of l)
                CloseOK) blank
         = (Ok (),
            World (files blank) (link blank)
              (trace blank
               ++ [Logged INFO [Lit "Transcription: ";
                                Val (JStr (transcript Sample.mute (Some Sample.riff)))];
                   Logged INFO [Lit "AI Response: ";
                                Val (reply Sample.mute
                                       (transcript Sample.mute (Some Sample.riff)))]])).
Proof.
  split; [reflexivity|]. split; [exact I|]. split; [reflexivity|].
  apply (failed_synthesis_is_silent_on_the_client Sample.b64decode Sample.b64encode
           Sample.playback 7 (Decoded (Sample.audio_message "UklGRg==")) Sample.riff
           Sample.mute blank blank).
  - reflexivity.
  - exact I.
  - reflexivity.
Defined.

(** The two sample sessions and a file that belongs to neither. *)
Lemma pool_leaves_foreign_files_witness :
  (∀ c, c ∈ [Sample.first_client; Sample.second_client] →
        ¬ owned_by (conn_id c) "temp_audio/notes.txt")
  ∧ (pool_run (concat (replicate 40 [0; 1; 0]))%nat
       (files Sample.littered,
        serve Sample.b64decode Sample.b64encode
          <$> [Sample.first_client; Sample.second_client])).1 !! "temp_audio/notes.txt"
    = files Sample.littered !! "temp_audio/notes.txt".
Proof.
  assert (∀ c, c ∈ [Sample.first_client; Sample.second_client] →
               ¬ owned_by (conn_id c) "temp_audio/notes.txt") as Hforeign.
  { intros c Hc Hq.
    apply elem_of_cons in Hc as [-> | Hc];
      [|apply elem_of_cons in Hc as [-> | Hc]; [|by apply elem_of_nil in Hc]];
      destruct Hq as [H | H]; vm_compute in H; discriminate H. }
  split; [exact Hforeign|].
  apply (pool_leaves_foreign_files Sample.b64decode Sample.b64encode
           [Sample.first_client; Sample.second_client]
           (concat (replicate 40 [0; 1; 0]))%nat (files Sample.littered)
           "temp_audio/notes.txt" Hforeign).
Defined.

(** The files of the second of two sample sessions, under every schedule. *)
Lemma session_files_are_as_alone_witness :
  NoDup (conn_id <$> [Sample.first_client; Sample.second_client])
  ∧ [Sample.first_client; Sample.second_client] !! 1%nat = Some Sample.second_client
  ∧ ∃ n, ∀ schedule, (n ≤ turns 1 schedule)%nat →
      ∀ q, owned_by (conn_id Sample.second_client) q →
        (pool_run schedule
           (∅, serve Sample.b64decode Sample.b64encode
               <$> [Sample.first_client; Sample.second_client])).1 !! q
        = files (run (todo (serve Sample.b64decode Sample.b64encode
                              Sample.second_client))
                   (World ∅ (conn_link Sample.second_client) [])).2 !! q.
Proof.
  assert (NoDup (conn_id <$> [Sample.first_client; Sample.second_client])) as Hids.
  { apply (bool_decide_unpack _). vm_compute. exact I. }
  split; [exact Hids|]. split; [reflexivity|].
  apply (session_files_are_as_alone Sample.b64decode Sample.b64encode
           [Sample.first_client; Sample.second_client] 1 Sample.second_client ∅).
  - exact Hids.
  - reflexivity.
Defined.
